(** * Plex improvement loop: coordinator, state store and success evaluator

    A shallow embedding of [loop_coordinator.py], [state_manager.py] and
    [compare_metrics.py] (directory [plex_improvement/scripts]), and the
    properties of the loop controller that were checked against it.

    Conventions of the embedding:
    - Python [int] is [Z]; Python [float] is IEEE-754 binary64, taken bit
      for bit from the specification of floating-point arithmetic of the
      standard library ([spec_float] with precision 53 and [emax] 1024);
    - a Python exception is a [Raise] in the [result] monad;
    - a metrics dictionary is a finite map from counter names to integers,
      read with [dict.get(key, default)];
    - the coordinator's state dictionary, whose keys are fixed by
      [LoopCoordinator.__init__], is a record;
    - collaborators (sub-processes, the clock, the file system) are inputs
      of the functions that call them. *)

From Stdlib Require Import ZArith String List Bool Lia.
From Stdlib Require Import Floats.SpecFloat.
From stdpp Require Import base option list strings gmap.

Local Open Scope string_scope.
Local Open Scope Z_scope.

(** ** Exceptions *)

Module Py.

Inductive exn : Type :=
| TypeError
| AttributeError
| ZeroDivisionError
| OverflowError
| IndexError
| IOError.

Inductive result (A : Type) : Type :=
| Ret (a : A)
| Raise (e : exn).
Arguments Ret {A} a.
Arguments Raise {A} e.

Definition bind {A B : Type} (m : result A) (k : A -> result B) : result B :=
  match m with
  | Ret a => k a
  | Raise e => Raise e
  end.

#[global] Instance result_ret : MRet result := @Ret.
#[global] Instance result_bind : MBind result := fun A B k m => bind m k.

(** ** Numbers

    [float(n)] is [PyLong_AsDouble]: the integer rounded to nearest even,
    [OverflowError] when the rounded value does not fit a double. *)

Definition prec : Z := 53.
Definition emax : Z := 1024.

Inductive num : Type :=
| Int (z : Z)
| Float (f : spec_float).

Definition float (n : Z) : result spec_float :=
  match binary_normalize prec emax n 0 false with
  | S754_infinity _ => Raise OverflowError
  | f => Ret f
  end.

Definition to_double (x : num) : result spec_float :=
  match x with
  | Int z => float z
  | Float f => Ret f
  end.

Definition is_zero (f : spec_float) : bool :=
  match f with
  | S754_zero _ => true
  | _ => false
  end.

(** [x / y] with a float on one side ([float_div]): both operands become
    doubles, a zero divisor raises. *)
Definition truediv (x y : num) : result num :=
  a ← to_double x;
  b ← to_double y;
  if is_zero b then Raise ZeroDivisionError
  else Ret (Float (SFdiv prec emax a b)).

(** [x * y]: integer product, or the product of the two doubles. *)
Definition mul (x y : num) : result num :=
  match x, y with
  | Int a, Int b => Ret (Int (a * b))
  | _, _ =>
      a ← to_double x;
      b ← to_double y;
      Ret (Float (SFmul prec emax a b))
  end.

(** [x - y]. *)
Definition sub (x y : num) : result num :=
  match x, y with
  | Int a, Int b => Ret (Int (a - b))
  | _, _ =>
      a ← to_double x;
      b ← to_double y;
      Ret (Float (SFsub prec emax a b))
  end.

(** Comparison of a number with an integer literal.  Python compares an
    [int] and a [float] by value; the literals of this program (5, 10, 50,
    75, 90 and their opposites) are doubles, so the comparison of the two
    doubles is that comparison.  A NaN compares false. *)
Definition lit (z : Z) : spec_float := binary_normalize prec emax z 0 false.

Definition ltb (x : num) (z : Z) : bool :=
  match x with
  | Int a => a <? z
  | Float f => SFltb f (lit z)
  end.

Definition geb (x : num) (z : Z) : bool :=
  match x with
  | Int a => z <=? a
  | Float f => SFleb (lit z) f
  end.

(** [round(x, 2)], as Python 3 defines it (the coordinator runs its
    collaborators with [subprocess.run(..., capture_output=True)], which
    needs Python 3.7).  An [int] is returned as it is.  A double that is
    not finite, or has no fractional bit, is returned as it is; otherwise
    the exact value of the double is rounded, half to even, to a whole
    number [n] of hundredths, and the result is the double nearest to
    [n / 100] ([double_round]: correctly rounded conversion to decimal and
    back). *)
Definition round_half_even (a b : Z) : Z :=
  let q := a / b in
  let r := a mod b in
  match 2 * r ?= b with
  | Lt => q
  | Gt => q + 1
  | Eq => if Z.even q then q else q + 1
  end.

Definition round2_double (f : spec_float) : spec_float :=
  match f with
  | S754_finite s m e =>
      match e with
      | Zneg k =>
          match round_half_even (Zpos m * 100) (2 ^ Zpos k) with
          | Zpos n =>
              SFdiv prec emax (S754_finite s n 0) (S754_finite false 100 0)
          | _ => S754_zero s
          end
      | _ => f
      end
  | _ => f
  end.

Definition round2 (x : num) : num :=
  match x with
  | Int z => Int z
  | Float f => Float (round2_double f)
  end.

End Py.

Import Py.

(** ** JSON documents

    What [json.dump] writes and [json.load] reads back.  An object is a
    finite map, so that two documents are equal when they have the same
    keys with the same values, as two Python dictionaries are.  The
    numbers of the documents of this program are integers. *)

Module Json.

#[warnings="-register-all"] Inductive value : Type :=
| Null
| Bool (b : bool)
| Int (z : Z)
| Str (s : string)
| List (l : list value)
| Dict (d : gmap string value).

Definition of_option {A : Type} (f : A -> value) (o : option A) : value :=
  match o with
  | None => Null
  | Some a => f a
  end.

(** [d.get(key)] on a document: [None] unless it is an object with the key. *)
Definition lookup (v : value) (key : string) : option value :=
  match v with
  | Dict d => d !! key
  | _ => None
  end.

End Json.

(** The file system: the document stored at each path. *)
Abbreviation files := (gmap string Json.value).

(** ** Metrics snapshots *)

Abbreviation metrics := (gmap string Z).

(** [m.get(key, default)] *)
Definition get (m : metrics) (key : string) (default_ : Z) : Z :=
  default default_ (m !! key).

(** [x.get(key, default)] where [x] may be [None]: [None] has no [get]. *)
Definition snapshot_get (x : option metrics) (key : string) (default_ : Z)
  : result Z :=
  match x with
  | None => Raise AttributeError
  | Some m => Ret (get m key default_)
  end.

(** The sum [x.get('title_failures', 0) + x.get('url_errors', 0) +
    x.get('model_errors', 0)] that every progress computation starts from. *)
Definition error_sum (m : metrics) : Z :=
  get m "title_failures" 0 + get m "url_errors" 0 + get m "model_errors" 0.

Definition snapshot_error_sum (x : option metrics) : result Z :=
  t ← snapshot_get x "title_failures" 0;
  u ← snapshot_get x "url_errors" 0;
  m ← snapshot_get x "model_errors" 0;
  Ret (t + u + m).

(** [(diff / float(whole)) * 100], as in
    [((baseline_errors - current_errors) / float(baseline_errors)) * 100]
    and [(success_count / float(total_indicators)) * 100]. *)
Definition percent_of (diff whole : Z) : result num :=
  f ← float whole;
  q ← truediv (Int diff) (Float f);
  mul q (Int 100).

(** [((searches - errors) / float(searches)) * 100 if searches > 0 else 0] *)
Definition success_rate_of (searches errors : Z) : result num :=
  if 0 <? searches then percent_of (searches - errors) searches
  else Ret (Int 0).

Definition metrics_to_json (m : metrics) : Json.value :=
  Json.Dict (Json.Int <$> m).

(** ** One entry of the iteration history ([record_iteration]) *)

Module IterationRecord.

Record t : Type := mk {
  iteration : Z;
  phase : string;
  timestamp : string;
  results : Json.value;
  metrics_snapshot : option metrics
}.

Definition to_json (r : t) : Json.value :=
  Json.Dict (list_to_map
    [ ("iteration", Json.Int (iteration r));
      ("phase", Json.Str (phase r));
      ("timestamp", Json.Str (timestamp r));
      ("results", results r);
      ("metrics_snapshot", Json.of_option metrics_to_json (metrics_snapshot r)) ]).

End IterationRecord.

(** ** The result of [calculate_progress] *)

Module Progress.

Record t : Type := mk {
  total_error_reduction : num;
  success_rate_improvement : num;
  iterations : Z;
  fixes_successful : Z;
  fixes_failed : Z;
  baseline_errors : Z;
  current_errors : Z
}.

End Progress.

(** ** loop_coordinator.py *)

Module LoopCoordinator.

(** [self.state], with the keys [__init__] gives it. *)
Record State : Type := mkState {
  iteration : Z;
  max_iterations : Z;
  baseline_metrics : option metrics;
  current_metrics : option metrics;
  iteration_history : list IterationRecord.t;
  fixes_attempted : list string;
  fixes_successful : list string;
  fixes_failed : list string;
  exit_condition : option string;
  start_time : string
}.

(** The state of a coordinator created without a state file; [now] is
    [datetime.datetime.now().isoformat()]. *)
Definition init (now : string) : State :=
  {| iteration := 0;
     max_iterations := 10;
     baseline_metrics := None;
     current_metrics := None;
     iteration_history := [];
     fixes_attempted := [];
     fixes_successful := [];
     fixes_failed := [];
     exit_condition := None;
     start_time := now |}.

Definition set_exit_condition (st : State) (c : string) : State :=
  {| iteration := iteration st;
     max_iterations := max_iterations st;
     baseline_metrics := baseline_metrics st;
     current_metrics := current_metrics st;
     iteration_history := iteration_history st;
     fixes_attempted := fixes_attempted st;
     fixes_successful := fixes_successful st;
     fixes_failed := fixes_failed st;
     exit_condition := Some c;
     start_time := start_time st |}.

Definition set_iteration_history (st : State) (h : list IterationRecord.t)
  : State :=
  {| iteration := iteration st;
     max_iterations := max_iterations st;
     baseline_metrics := baseline_metrics st;
     current_metrics := current_metrics st;
     iteration_history := h;
     fixes_attempted := fixes_attempted st;
     fixes_successful := fixes_successful st;
     fixes_failed := fixes_failed st;
     exit_condition := exit_condition st;
     start_time := start_time st |}.

Definition set_fixes (st : State) (attempted successful failed : list string)
  : State :=
  {| iteration := iteration st;
     max_iterations := max_iterations st;
     baseline_metrics := baseline_metrics st;
     current_metrics := current_metrics st;
     iteration_history := iteration_history st;
     fixes_attempted := attempted;
     fixes_successful := successful;
     fixes_failed := failed;
     exit_condition := exit_condition st;
     start_time := start_time st |}.

(** The state dictionary as the document [json.dump] writes. *)
Definition state_to_json (st : State) : Json.value :=
  Json.Dict (list_to_map
    [ ("iteration", Json.Int (iteration st));
      ("max_iterations", Json.Int (max_iterations st));
      ("baseline_metrics", Json.of_option metrics_to_json (baseline_metrics st));
      ("current_metrics", Json.of_option metrics_to_json (current_metrics st));
      ("iteration_history",
        Json.List (IterationRecord.to_json <$> iteration_history st));
      ("fixes_attempted", Json.List (Json.Str <$> fixes_attempted st));
      ("fixes_successful", Json.List (Json.Str <$> fixes_successful st));
      ("fixes_failed", Json.List (Json.Str <$> fixes_failed st));
      ("exit_condition", Json.of_option Json.Str (exit_condition st));
      ("start_time", Json.Str (start_time st)) ]).

(** *** load_state, save_state

    [base_dir] is the directory of the coordinator; [now] is the clock. *)

Definition state_file (base_dir : string) : string :=
  base_dir ++ "/loop_state.json".

Definition load_state (fs : files) (state_file : string) : result Json.value :=
  match fs !! state_file with
  | Some doc => Ret doc
  | None => Raise IOError
  end.

Definition save_state (fs : files) (base_dir now : string) (st : State)
    (reason : string) : files :=
  let state := Json.Dict (list_to_map
    [ ("saved_at", Json.Str now);
      ("reason", Json.Str reason);
      ("coordinator_state", state_to_json st) ]) in
  <[state_file base_dir := state]> fs.

(** *** record_iteration *)

Definition record_iteration (now : string) (st : State) (phase : string)
    (results : Json.value) : State :=
  let iteration_record :=
    {| IterationRecord.iteration := iteration st;
       IterationRecord.phase := phase;
       IterationRecord.timestamp := now;
       IterationRecord.results := results;
       IterationRecord.metrics_snapshot := current_metrics st |} in
  set_iteration_history st (iteration_history st ++ [iteration_record]).

Definition is_aggregation (r : IterationRecord.t) : bool :=
  String.eqb (IterationRecord.phase r) "aggregation".

(** *** calculate_progress *)

(** The scan for the first and the latest aggregation record. *)
Definition scan_step (acc : option IterationRecord.t * option IterationRecord.t)
    (record : IterationRecord.t)
  : option IterationRecord.t * option IterationRecord.t :=
  let '(first_agg, latest_agg) := acc in
  if is_aggregation record then
    (match first_agg with None => Some record | Some _ => first_agg end,
     Some record)
  else (first_agg, latest_agg).

Definition calculate_progress (st : State) : result (option Progress.t) :=
  if Z.of_nat (length (iteration_history st)) <? 2 then Ret None
  else
    match fold_left scan_step (iteration_history st) (None, None) with
    | (Some first_agg, Some latest_agg) =>
        let baseline := IterationRecord.metrics_snapshot first_agg in
        let current := IterationRecord.metrics_snapshot latest_agg in
        baseline_errors ← snapshot_error_sum baseline;
        current_errors ← snapshot_error_sum current;
        error_reduction ←
          (if 0 <? baseline_errors
           then percent_of (baseline_errors - current_errors) baseline_errors
           else Ret (Py.Int 0));
        baseline_searches ← snapshot_get baseline "total_search_ops" 1;
        current_searches ← snapshot_get current "total_search_ops" 1;
        baseline_success_rate ← success_rate_of baseline_searches baseline_errors;
        current_success_rate ← success_rate_of current_searches current_errors;
        success_improvement ← sub current_success_rate baseline_success_rate;
        Ret (Some
          {| Progress.total_error_reduction := round2 error_reduction;
             Progress.success_rate_improvement := round2 success_improvement;
             Progress.iterations :=
               Z.of_nat (length (filter is_aggregation (iteration_history st)));
             Progress.fixes_successful := Z.of_nat (length (fixes_successful st));
             Progress.fixes_failed := Z.of_nat (length (fixes_failed st));
             Progress.baseline_errors := baseline_errors;
             Progress.current_errors := current_errors |})
    | _ => Ret None
    end.

(** *** detect_plateau *)

(** [l[i]] *)
Definition index {A : Type} (l : list A) (i : nat) : result A :=
  match l !! i with
  | Some a => Ret a
  | None => Raise IndexError
  end.

(** The body of [for i in range(len(recent_iterations) - 1)], over the
    indices still to visit. *)
Fixpoint plateau_loop (recent_iterations : list IterationRecord.t)
    (indices : list nat) (improvements : list num) : result (list num) :=
  match indices with
  | [] => Ret improvements
  | i :: rest =>
      r1 ← index recent_iterations (i + 1);
      let current := IterationRecord.metrics_snapshot r1 in
      r0 ← index recent_iterations i;
      let previous := IterationRecord.metrics_snapshot r0 in
      prev_errors ← snapshot_error_sum previous;
      curr_errors ← snapshot_error_sum current;
      if 0 <? prev_errors then
        improvement ← percent_of (prev_errors - curr_errors) prev_errors;
        plateau_loop recent_iterations rest (improvements ++ [improvement])
      else plateau_loop recent_iterations rest improvements
  end.

(** [l[-2:]] *)
Definition last_two {A : Type} (l : list A) : list A :=
  drop (length l - 2) l.

Definition detect_plateau (st : State) (progress : option Progress.t)
  : result bool :=
  if Z.of_nat (length (iteration_history st)) <? 3 then Ret false
  else
    let agg_results := filter is_aggregation (iteration_history st) in
    if Z.of_nat (length agg_results) <? 2 then Ret false
    else
      let recent_iterations := last_two agg_results in
      improvements ←
        plateau_loop recent_iterations
          (seq 0 (length recent_iterations - 1)) [];
      if 2 <=? Z.of_nat (length improvements)
      then Ret (forallb (fun imp => ltb imp 5) improvements)
      else Ret false.

(** *** detect_regression, has_more_fixes *)

Definition detect_regression (progress : option Progress.t) : bool :=
  match progress with
  | None => false
  | Some p => ltb (Progress.total_error_reduction p) (-5)
  end.

Definition has_more_fixes (st : State) : bool :=
  iteration st <? max_iterations st.

(** *** should_exit

    Returns the state (its [exit_condition] set when the loop must stop)
    and the pair [(should_exit, reason)]. *)
Definition should_exit (st : State) : result (State * (bool * option string)) :=
  progress ← calculate_progress st;
  if max_iterations st <=? iteration st then
    Ret (set_exit_condition st "max_iterations_reached",
         (true, Some "Maximum iterations reached"))
  else if negb (has_more_fixes st) then
    Ret (set_exit_condition st "all_fixes_attempted",
         (true, Some "All identified fixes have been attempted"))
  else
    plateau ← detect_plateau st progress;
    if (plateau : bool) then
      Ret (set_exit_condition st "plateau_detected",
           (true, Some "Progress has plateaued - no significant improvement in last 2 iterations"))
    else if match progress with
            | Some p => geb (Progress.total_error_reduction p) 90
            | None => false
            end then
      Ret (set_exit_condition st "success",
           (true, Some "Target improvement achieved (90%+ error reduction)"))
    else if detect_regression progress then
      Ret (set_exit_condition st "regression_detected",
           (true, Some "System performance has regressed - stopping"))
    else Ret (st, (false, None)).


(** *** Collaborators

    A sibling script run with [subprocess.run]: it is missing from the
    scripts directory, or it exits with a return code. *)
Inductive script : Type :=
| NotFound
| Exited (returncode : Z) (stderr : string).

(** A fix proposed by the diagnostic report. *)
Record Fix : Type := mkFix {
  name : string;
  priority : string;
  expected_improvement : string
}.

Definition fix_to_json (f : Fix) : Json.value :=
  Json.Dict (list_to_map
    [ ("name", Json.Str (name f));
      ("priority", Json.Str (priority f));
      ("expected_improvement", Json.Str (expected_improvement f)) ]).

(** *** execute_implementation *)

Inductive ImplementationResults : Type :=
| NoFixes (message : string)
| Failed (fix_name error : string)
| Implemented (fix_name : string) (fix_details : Fix).

Definition implementation_to_json (r : ImplementationResults) : Json.value :=
  match r with
  | NoFixes message =>
      Json.Dict (list_to_map
        [ ("status", Json.Str "no_fixes"); ("message", Json.Str message) ])
  | Failed fix_name error =>
      Json.Dict (list_to_map
        [ ("status", Json.Str "failed"); ("fix_name", Json.Str fix_name);
          ("error", Json.Str error) ])
  | Implemented fix_name fix_details =>
      Json.Dict (list_to_map
        [ ("status", Json.Str "success"); ("fix_name", Json.Str fix_name);
          ("fix_details", fix_to_json fix_details) ])
  end.

(** [[f for f in fixes if f.get('priority') == 'HIGH' and f.get('name')
    not in self.state['fixes_attempted']]] *)
Definition pending_fixes (st : State) (fixes : list Fix) : list Fix :=
  filter (fun f => priority f = "HIGH" ∧ name f ∉ fixes_attempted st) fixes.

Definition execute_implementation (st : State) (fixes : list Fix)
    (impl_script : script) : State * ImplementationResults :=
  match pending_fixes st fixes with
  | [] => (st, NoFixes "All high-priority fixes have been attempted")
  | fix_to_implement :: _ =>
      let implemented :=
        (set_fixes st (fixes_attempted st ++ [name fix_to_implement])
           (fixes_successful st) (fixes_failed st),
         Implemented (name fix_to_implement) fix_to_implement) in
      match impl_script with
      | Exited returncode stderr =>
          if negb (returncode =? 0) then
            (set_fixes st (fixes_attempted st) (fixes_successful st)
               (fixes_failed st ++ [name fix_to_implement]),
             Failed (name fix_to_implement) stderr)
          else implemented
      | NotFound => implemented
      end
  end.

(** *** execute_testing *)

(** What [parse_test_report] reads from the test report. *)
Record TestResults : Type := mkTestResults {
  success_rate : Z;
  success_count : Z;
  total_indicators : Z;
  decision : string
}.

(** The report written when [compare_metrics.py] is missing reads
    "Success Rate: 75%", "Success Indicators Met: 3/4", "Decision: KEEP". *)
Definition placeholder_test_results : TestResults :=
  {| success_rate := 75; success_count := 3; total_indicators := 4;
     decision := "KEEP" |}.

(** The three scripts of the testing phase, and what the report of the
    comparison script parses to. *)
Record TestingEnv : Type := mkTestingEnv {
  test_script : script;
  agg_script : script;
  compare_script : script;
  test_report : TestResults
}.

Record TestingResults : Type := mkTestingResults {
  test_results : TestResults;
  testing_decision : string;
  test_time_minutes : Z
}.

Definition testing_to_json (r : TestingResults) : Json.value :=
  Json.Dict (list_to_map
    [ ("status", Json.Str "success");
      ("test_results", Json.Dict (list_to_map
         [ ("success_rate", Json.Int (success_rate (test_results r)));
           ("success_count", Json.Int (success_count (test_results r)));
           ("total_indicators", Json.Int (total_indicators (test_results r)));
           ("decision", Json.Str (decision (test_results r))) ]));
      ("decision", Json.Str (testing_decision r));
      ("test_time_minutes", Json.Int (test_time_minutes r)) ]).

Definition failed_run (s : script) : bool :=
  match s with
  | Exited returncode _ => negb (returncode =? 0)
  | NotFound => false
  end.

(** [implementation_results.get('fix_name', 'Unknown')] *)
Definition fix_name_of (r : ImplementationResults) : string :=
  match r with
  | NoFixes _ => "Unknown"
  | Failed fix_name _ => fix_name
  | Implemented fix_name _ => fix_name
  end.

Definition execute_testing (st : State)
    (implementation_results : ImplementationResults) (env : TestingEnv)
  : State * option TestingResults :=
  let fix_name := fix_name_of implementation_results in
  if failed_run (test_script env) then (st, None)
  else if failed_run (agg_script env) then (st, None)
  else if failed_run (compare_script env) then (st, None)
  else
    let test_results :=
      match compare_script env with
      | NotFound => placeholder_test_results
      | Exited _ _ => test_report env
      end in
    let st' :=
      if String.eqb (decision test_results) "KEEP" then
        set_fixes st (fixes_attempted st) (fixes_successful st ++ [fix_name])
          (fixes_failed st)
      else if String.eqb (decision test_results) "ROLLBACK" then
        set_fixes st (fixes_attempted st) (fixes_successful st)
          (fixes_failed st ++ [fix_name])
      else st in
    (st', Some {| test_results := test_results;
                  testing_decision := decision test_results;
                  test_time_minutes := 30 |}).

(** *** The implementation and testing phases of one pass of [main]

    Phase 3 and phase 4 of the loop body, with the history records they
    add; [None] for the testing results when the pass does not reach the
    end of phase 4. *)
Definition implement_and_test (now : string) (st : State) (fixes : list Fix)
    (impl_script : script) (env : TestingEnv)
  : State * option TestingResults :=
  let '(st1, implementation_results) :=
    execute_implementation st fixes impl_script in
  match implementation_results with
  | NoFixes _ => (st1, None)
  | Failed _ _ => (st1, None)
  | Implemented _ _ =>
      let st2 :=
        record_iteration now st1 "implementation"
          (implementation_to_json implementation_results) in
      match execute_testing st2 implementation_results env with
      | (st3, None) => (st3, None)
      | (st3, Some testing_results) =>
          (record_iteration now st3 "testing"
             (testing_to_json testing_results),
           Some testing_results)
      end
  end.

(** One cycle is described by the fixes the diagnosis proposes and the
    outcome of the collaborators; a run of cycles threads the state. *)
Record Cycle : Type := mkCycle {
  cycle_now : string;
  cycle_fixes : list Fix;
  cycle_impl_script : script;
  cycle_testing : TestingEnv
}.

Definition run_cycle (st : State) (c : Cycle) : State :=
  fst (implement_and_test (cycle_now c) st (cycle_fixes c)
         (cycle_impl_script c) (cycle_testing c)).

Definition run_cycles (st : State) (cs : list Cycle) : State :=
  fold_left run_cycle cs st.

(** *** calculate_improvement *)

Record Improvement : Type := mkImprovement {
  error_reduction : num;
  success_rate_improvement : num
}.

Definition calculate_improvement (baseline current : metrics)
  : result Improvement :=
  let baseline_errors := error_sum baseline in
  let current_errors := error_sum current in
  error_reduction ←
    (if 0 <? baseline_errors
     then percent_of (baseline_errors - current_errors) baseline_errors
     else Ret (Py.Int 0));
  let baseline_searches := get baseline "total_search_ops" 1 in
  let current_searches := get current "total_search_ops" 1 in
  baseline_success ← success_rate_of baseline_searches baseline_errors;
  current_success ← success_rate_of current_searches current_errors;
  success_improvement ← sub current_success baseline_success;
  Ret (mkImprovement (round2 error_reduction) (round2 success_improvement)).


(** *** make_loop_decision

    [decision] is [test_results.get('decision', 'UNKNOWN')] and
    [alternative_solution] the truth value of
    [test_results.get('alternative_solution')]. *)
Definition make_loop_decision (st : State) (decision : string)
    (alternative_solution : bool) : string :=
  if String.eqb decision "KEEP" then
    if has_more_fixes st then "next_fix" else "re_diagnose"
  else if String.eqb decision "ROLLBACK" then
    if alternative_solution then "try_alternative" else "next_fix"
  else if String.eqb decision "MONITOR" then "wait_and_retest"
  else if String.eqb decision "MODIFY" then "re_diagnose"
  else "next_fix".

(** *** generate_final_report

    The rows of the table "Baseline vs Final Metrics": for each key the
    two values, their difference and
    [((change / float(baseline_val)) * 100) if baseline_val > 0 else 0]. *)
Fixpoint metric_rows (baseline current : option metrics)
    (keys : list string) : result (list (Z * Z * Z * num)) :=
  match keys with
  | [] => Ret []
  | key :: rest =>
      baseline_val ← snapshot_get baseline key 0;
      current_val ← snapshot_get current key 0;
      let change := current_val - baseline_val in
      pct_change ←
        (if 0 <? baseline_val then percent_of change baseline_val
         else Ret (Py.Int 0));
      rows ← metric_rows baseline current rest;
      Ret ((baseline_val, current_val, change, pct_change) :: rows)
  end.

(** [record.get('results', {}).get('status', 'Unknown')] for every record
    of the history: a payload that is not an object has no [get]. *)
Fixpoint history_statuses (history : list IterationRecord.t)
  : result (list Json.value) :=
  match history with
  | [] => Ret []
  | record :: rest =>
      status ←
        match IterationRecord.results record with
        | Json.Dict d => Ret (default (Json.Str "Unknown") (d !! "status"))
        | _ => Raise AttributeError
        end;
      statuses ← history_statuses rest;
      Ret (status :: statuses)
  end.

(** The report is computed, then written to
    [final_improvement_report.md], a text file that is not among the JSON
    documents [files] tracks, then the state is dumped, as it is, to
    [loop_state.json]. *)
Definition generate_final_report (fs : files) (base_dir : string)
    (st : State) : result files :=
  progress ← calculate_progress st;
  rows ←
    metric_rows (baseline_metrics st) (current_metrics st)
      [ "total_search_ops"; "title_failures"; "url_errors"; "model_errors" ];
  statuses ← history_statuses (iteration_history st);
  Ret (<[state_file base_dir := state_to_json st]> fs).

(** *** One pass of the loop of [main]

    [execute_log_aggregation] and [execute_diagnostics] run a script and
    parse the file it wrote: what they return ([None] on failure) is an
    input of the pass, like the outcome of the other scripts and the
    clock.  The prompts of [main] are not modelled. *)

Record AggregationResults : Type := mkAggregationResults {
  output_file : string;
  aggregation_metrics : metrics
}.

Record DiagnosticResults : Type := mkDiagnosticResults {
  report_file : string;
  fixes : list Fix;
  error_types : list string
}.

Definition aggregation_to_json (r : AggregationResults) : Json.value :=
  Json.Dict (list_to_map
    [ ("status", Json.Str "success");
      ("output_file", Json.Str (output_file r));
      ("metrics", metrics_to_json (aggregation_metrics r)) ]).

Definition diagnostics_to_json (r : DiagnosticResults) : Json.value :=
  Json.Dict (list_to_map
    [ ("status", Json.Str "success");
      ("report_file", Json.Str (report_file r));
      ("fixes", Json.List (fix_to_json <$> fixes r));
      ("error_types", Json.List (Json.Str <$> error_types r)) ]).

Record PassEnv : Type := mkPassEnv {
  now_aggregation : string;
  now_diagnostics : string;
  now_implementation : string;
  now_testing : string;
  now_saved : string;
  aggregation : option AggregationResults;
  diagnostics : option DiagnosticResults;
  implementation_script : script;
  testing : TestingEnv
}.

(** How a pass ends: [break], or the next pass ([continue], or the end of
    the loop body). *)
Inductive flow : Type :=
| Break
| Continue.

Definition set_iteration (st : State) (i : Z) : State :=
  {| iteration := i;
     max_iterations := max_iterations st;
     baseline_metrics := baseline_metrics st;
     current_metrics := current_metrics st;
     iteration_history := iteration_history st;
     fixes_attempted := fixes_attempted st;
     fixes_successful := fixes_successful st;
     fixes_failed := fixes_failed st;
     exit_condition := exit_condition st;
     start_time := start_time st |}.

Definition set_metrics (st : State) (baseline current : option metrics)
  : State :=
  {| iteration := iteration st;
     max_iterations := max_iterations st;
     baseline_metrics := baseline;
     current_metrics := current;
     iteration_history := iteration_history st;
     fixes_attempted := fixes_attempted st;
     fixes_successful := fixes_successful st;
     fixes_failed := fixes_failed st;
     exit_condition := exit_condition st;
     start_time := start_time st |}.

(** The end of the loop body: [should_exit], then the progress shown
    before the next pass. *)
Definition check_exit_conditions (fs : files) (st : State)
  : result (files * State * flow) :=
  '(st, (exit_, reason)) ← should_exit st;
  if (exit_ : bool) then Ret (fs, st, Break)
  else
    progress ← calculate_progress st;
    Ret (fs, st, Continue).

Definition main_pass (fs : files) (base_dir : string) (env : PassEnv)
    (st : State) : result (files * State * flow) :=
  let st := set_iteration st (iteration st + 1) in
  let iteration_ := iteration st in
  match aggregation env with
  | None => Ret (fs, st, Break)
  | Some aggregation_results =>
      let st :=
        set_metrics st (baseline_metrics st)
          (Some (aggregation_metrics aggregation_results)) in
      let st :=
        if iteration_ =? 1 then
          set_metrics st (Some (aggregation_metrics aggregation_results))
            (current_metrics st)
        else st in
      let st :=
        record_iteration (now_aggregation env) st "aggregation"
          (aggregation_to_json aggregation_results) in
      match diagnostics env with
      | None => Ret (fs, st, Break)
      | Some diagnostic_results =>
          let st :=
            record_iteration (now_diagnostics env) st "diagnostics"
              (diagnostics_to_json diagnostic_results) in
          let '(st, implementation_results) :=
            execute_implementation st (fixes diagnostic_results)
              (implementation_script env) in
          match implementation_results with
          | NoFixes _ =>
              '(st, (exit_, reason)) ← should_exit st;
              Ret (fs, st, if (exit_ : bool) then Break else Continue)
          | Failed _ _ => Ret (fs, st, Continue)
          | Implemented _ _ =>
              let st :=
                record_iteration (now_implementation env) st "implementation"
                  (implementation_to_json implementation_results) in
              match execute_testing st implementation_results (testing env)
              with
              | (st, None) => Ret (fs, st, Break)
              | (st, Some testing_results) =>
                  let st :=
                    record_iteration (now_testing env) st "testing"
                      (testing_to_json testing_results) in
                  let next_action :=
                    make_loop_decision st (testing_decision testing_results)
                      false in
                  if String.eqb next_action "next_fix" then
                    Ret (fs, st, Continue)
                  else if String.eqb next_action "re_diagnose" then
                    check_exit_conditions fs st
                  else if String.eqb next_action "wait_and_retest" then
                    Ret (save_state fs base_dir (now_saved env) st
                           "waiting_for_retest", st, Break)
                  else check_exit_conditions fs st
              end
          end
      end
  end.

(** The passes of the loop, one for each environment, as long as the
    loop goes on; [Continue] when it has not ended after the last. *)
Fixpoint main_loop (fs : files) (base_dir : string) (envs : list PassEnv)
    (st : State) : result (files * State * flow) :=
  match envs with
  | [] => Ret (fs, st, Continue)
  | env :: rest =>
      '(fs, st, how) ← main_pass fs base_dir env st;
      match how with
      | Break => Ret (fs, st, Break)
      | Continue => main_loop fs base_dir rest st
      end
  end.

End LoopCoordinator.

(** ** state_manager.py *)

Module StateManager.

Record t : Type := mk {
  state_file : string;
  state : Json.value
}.

Definition save_state (fs : files) (now : string) (self : t)
    (reason : string) : files :=
  let state := Json.Dict (list_to_map
    [ ("saved_at", Json.Str now);
      ("reason", Json.Str reason);
      ("state", state self) ]) in
  <[state_file self := state]> fs.

(** [data.get('state', {})]; a document that is not an object has no [get]. *)
Definition load_state (fs : files) (self : t) : result t :=
  match fs !! state_file self with
  | Some (Json.Dict data) =>
      Ret {| state_file := state_file self;
             state := default (Json.Dict ∅) (data !! "state") |}
  | Some _ => Raise AttributeError
  | None => Ret self
  end.


(** [StateManager(state_file)]: [state_file or
    "Plug-ins/plex_improvement/state.json"], the empty state, and
    [load_state] when the file exists. *)
Definition default_state_file : string :=
  "Plug-ins/plex_improvement/state.json".

Definition init (fs : files) (state_file_ : option string) : result t :=
  let path :=
    match state_file_ with
    | Some p => if String.eqb p "" then default_state_file else p
    | None => default_state_file
    end in
  load_state fs {| state_file := path; state := Json.Dict ∅ |}.


(** [self.state.get(key, default)] *)
Definition get_state (self : t) (key : string) (default_ : Json.value)
  : result Json.value :=
  match state self with
  | Json.Dict d => Ret (default default_ (d !! key))
  | _ => Raise AttributeError
  end.

(** [clear_state]: the empty state, and the file removed if it exists. *)
Definition clear_state (fs : files) (self : t) : files * t :=
  (delete (state_file self) fs,
   {| state_file := state_file self; state := Json.Dict ∅ |}).

End StateManager.

(** ** compare_metrics.py: MetricComparison *)

Module MetricComparison.

(** The two parsed reports.  ([parse_report] also stores the per-agent
    statistics under ['agent_stats']; no comparison reads them.) *)
Record t : Type := mk {
  baseline : metrics;
  current : metrics
}.

Record Comparison : Type := mkComparison {
  metric : string;
  baseline_val : Z;
  current_val : Z;
  change : Z;
  percent_change : num;
  improved : bool
}.

Definition compare_metric (self : t) (metric_name : string)
  : result Comparison :=
  let baseline_val := get (baseline self) metric_name 0 in
  let current_val := get (current self) metric_name 0 in
  let change := current_val - baseline_val in
  percent_change ←
    (if baseline_val =? 0
     then Ret (Py.Int (if 0 <? current_val then 100 else 0))
     else percent_of change baseline_val);
  let improved := current_val <? baseline_val in
  Ret (mkComparison metric_name baseline_val current_val change
         (round2 percent_change) improved).

Definition metrics_to_compare : list string :=
  [ "total_search_ops"; "titles_found"; "title_failures"; "model_errors";
    "url_errors" ].

(** [generate_comparison_report]: the comparisons, in the order of
    [metrics_to_compare]. *)
Fixpoint compare_all (self : t) (names : list string)
  : result (list Comparison) :=
  match names with
  | [] => Ret []
  | metric :: rest =>
      r ← compare_metric self metric;
      rs ← compare_all self rest;
      Ret (r :: rs)
  end.

Definition generate_comparison_report (self : t) : result (list Comparison) :=
  compare_all self metrics_to_compare.

Record OverallImprovement : Type := mkOverall {
  baseline_errors : Z;
  current_errors : Z;
  error_reduction : num;
  baseline_success_rate : num;
  current_success_rate : num;
  success_rate_improvement : num
}.

Definition calculate_overall_improvement (self : t)
  : result OverallImprovement :=
  let baseline_errors := error_sum (baseline self) in
  let current_errors := error_sum (current self) in
  let baseline_searches := get (baseline self) "total_search_ops" 1 in
  let current_searches := get (current self) "total_search_ops" 1 in
  error_reduction ←
    (if 0 <? baseline_errors
     then percent_of (baseline_errors - current_errors) baseline_errors
     else Ret (Py.Int 0));
  baseline_success ← success_rate_of baseline_searches baseline_errors;
  current_success ← success_rate_of current_searches current_errors;
  success_improvement ← sub current_success baseline_success;
  Ret (mkOverall baseline_errors current_errors (round2 error_reduction)
         (round2 baseline_success) (round2 current_success)
         (round2 success_improvement)).

End MetricComparison.

(** ** compare_metrics.py: SuccessEvaluator *)

Module SuccessEvaluator.

Import MetricComparison.

Record t : Type := mk {
  comparison_results : list Comparison;
  overall_improvement : OverallImprovement
}.

(** [baseline_value], [current_value]: the first result for the metric,
    0 when there is none. *)
Fixpoint baseline_value (results : list Comparison) (metric_name : string)
  : Z :=
  match results with
  | [] => 0
  | result :: rest =>
      if String.eqb (metric result) metric_name then baseline_val result
      else baseline_value rest metric_name
  end.

Fixpoint current_value (results : list Comparison) (metric_name : string)
  : Z :=
  match results with
  | [] => 0
  | result :: rest =>
      if String.eqb (metric result) metric_name then current_val result
      else current_value rest metric_name
  end.

Definition check_error_reduction (self : t) (threshold : Z) : bool :=
  geb (error_reduction (overall_improvement self)) threshold.

(** [for metric in ['model_errors']: ... if baseline_val == 0 and
    current_val > 0: return False] and the [return True] after the loop. *)
Fixpoint no_new_errors_loop (results : list Comparison)
    (metrics : list string) : bool :=
  match metrics with
  | [] => true
  | metric :: rest =>
      let baseline_val := baseline_value results metric in
      let current_val := current_value results metric in
      if (baseline_val =? 0) && (0 <? current_val) then false
      else no_new_errors_loop results rest
  end.

Definition check_no_new_errors (self : t) : bool :=
  no_new_errors_loop (comparison_results self) [ "model_errors" ].

Definition check_url_errors_reduced (self : t) : bool :=
  current_value (comparison_results self) "url_errors"
    <=? baseline_value (comparison_results self) "url_errors".

Definition check_title_failures_reduced (self : t) : bool :=
  current_value (comparison_results self) "title_failures"
    <=? baseline_value (comparison_results self) "title_failures".

Definition check_error_increase (self : t) : bool :=
  ltb (error_reduction (overall_improvement self)) (-10).

(** [for metric in ['url_errors', 'model_errors', 'title_failures']: ...
    if baseline_val > 0 and current_val > baseline_val * 2: return True]
    and the [return False] after the loop. *)
Fixpoint new_critical_errors_loop (results : list Comparison)
    (metrics : list string) : bool :=
  match metrics with
  | [] => false
  | metric :: rest =>
      let baseline_val := baseline_value results metric in
      let current_val := current_value results metric in
      if (0 <? baseline_val) && (baseline_val * 2 <? current_val) then true
      else new_critical_errors_loop results rest
  end.

Definition check_new_critical_errors (self : t) : bool :=
  new_critical_errors_loop (comparison_results self)
    [ "url_errors"; "model_errors"; "title_failures" ].

(** A bound method, by the number of parameters it has besides [self].
    Calling it with another number of arguments is a [TypeError]. *)
Inductive method : Type :=
| Method0 (body : bool)
| Method1 (body : Z -> bool).

Definition call0 (m : method) : result bool :=
  match m with
  | Method0 body => Ret body
  | Method1 _ => Raise TypeError
  end.

Definition call1 (m : method) (arg : Z) : result bool :=
  match m with
  | Method1 body => Ret (body arg)
  | Method0 _ => Raise TypeError
  end.

Record Indicator : Type := mkIndicator {
  name : string;
  check : method;
  threshold : option Z
}.

Definition success_indicators (self : t) : list Indicator :=
  [ mkIndicator "Error reduction >= 10%"
      (Method1 (check_error_reduction self)) (Some 10);
    mkIndicator "No new error types introduced"
      (Method0 (check_no_new_errors self)) None;
    mkIndicator "URL errors reduced (if applicable)"
      (Method0 (check_url_errors_reduced self)) None;
    mkIndicator "Title failures reduced (if applicable)"
      (Method0 (check_title_failures_reduced self)) None ].

Definition failure_indicators (self : t) : list Indicator :=
  [ mkIndicator "Error rate increased significantly (>10%)"
      (Method0 (check_error_increase self)) None;
    mkIndicator "New critical errors introduced"
      (Method0 (check_new_critical_errors self)) None ].

(** [for indicator in success_indicators: met =
    indicator['check'](indicator.get('threshold', 0)) ...] *)
Fixpoint count_successes (indicators : list Indicator) (success_count : Z)
  : result Z :=
  match indicators with
  | [] => Ret success_count
  | indicator :: rest =>
      met ← call1 (check indicator) (default 0 (threshold indicator));
      count_successes rest
        (if (met : bool) then success_count + 1 else success_count)
  end.

(** [for indicator in failure_indicators: detected = indicator['check']()
    ...] *)
Fixpoint detect_failures (indicators : list Indicator)
    (failure_detected : bool) : result bool :=
  match indicators with
  | [] => Ret failure_detected
  | indicator :: rest =>
      detected ← call0 (check indicator);
      detect_failures rest
        (if (detected : bool) then true else failure_detected)
  end.

(** The [if failure_detected ... elif ... else] that ends [evaluate_fix]:
    the decision and its reason. *)
Definition decide_fix (failure_detected : bool) (success_rate : num)
  : string * string :=
  if failure_detected then
    ("ROLLBACK", "Critical failure indicators detected")
  else if geb success_rate 75 then
    ("KEEP", "Met >=75% of success criteria")
  else if geb success_rate 50 then
    ("MONITOR", "Partial success - need more time or tweaking")
  else
    ("ROLLBACK", "Failed to meet minimum success criteria (<50%)").

Record Evaluation : Type := mkEvaluation {
  fix_name : string;
  success_rate : num;
  success_count : Z;
  total_indicators : Z;
  failure_detected : bool;
  decision : string;
  reason : string
}.

Definition evaluate_fix (self : t) (fix_name : string) : result Evaluation :=
  let total_indicators := Z.of_nat (length (success_indicators self)) in
  success_count ← count_successes (success_indicators self) 0;
  failure_detected ← detect_failures (failure_indicators self) false;
  success_rate ←
    (if 0 <? total_indicators
     then percent_of success_count total_indicators
     else Ret (Py.Int 0));
  let '(decision, reason) := decide_fix failure_detected success_rate in
  Ret (mkEvaluation fix_name (round2 success_rate) success_count
         total_indicators failure_detected decision reason).

(** The evaluator [main] builds from two parsed reports. *)
Definition of_reports (baseline current : metrics) : result t :=
  let comparison := MetricComparison.mk baseline current in
  comparison_results ← generate_comparison_report comparison;
  overall_improvement ← calculate_overall_improvement comparison;
  Ret (mk comparison_results overall_improvement).


(** The exit status of [main], run with its required arguments.  The two
    reports exist or not; [baseline] and [current] are what [parse_report]
    makes of them; [output_written] tells whether the report (or the JSON
    output) could be written.  An exception that nothing catches ends the
    interpreter with status 1. *)
Definition main_exit_status (baseline_exists current_exists : bool)
    (baseline current : result metrics) (fix_name : string)
    (output_written : bool) : Z :=
  if negb baseline_exists then 1
  else if negb current_exists then 1
  else
    match
      (baseline ← baseline;
       current ← current;
       evaluator ← of_reports baseline current;
       evaluate_fix evaluator fix_name)
    with
    | Raise _ => 1
    | Ret evaluation_result =>
        if negb output_written then 1
        else if String.eqb (decision evaluation_result) "ROLLBACK" then 1
        else if String.eqb (decision evaluation_result) "MONITOR" then 2
        else 0
    end.

End SuccessEvaluator.

(** ** Inputs used by the statements below *)

Module Examples.

Import LoopCoordinator.

(** A parsed aggregation report. *)
Definition snapshot (total_search_ops titles_found title_failures
    model_errors url_errors : Z) : metrics :=
  list_to_map
    [ ("total_search_ops", total_search_ops);
      ("titles_found", titles_found);
      ("title_failures", title_failures);
      ("model_errors", model_errors);
      ("url_errors", url_errors) ].

(** The history [main] builds: each record is added by [record_iteration]
    after [current_metrics] was set to the snapshot of the pass.  (The
    payload of a record plays no role below and is left empty.) *)
Definition with_metrics (st : State) (iteration : Z) (m : metrics) : State :=
  {| iteration := iteration;
     max_iterations := max_iterations st;
     baseline_metrics :=
       if iteration =? 1 then Some m else baseline_metrics st;
     current_metrics := Some m;
     iteration_history := iteration_history st;
     fixes_attempted := fixes_attempted st;
     fixes_successful := fixes_successful st;
     fixes_failed := fixes_failed st;
     exit_condition := exit_condition st;
     start_time := start_time st |}.

Definition aggregated (st : State) (iteration : Z) (m : metrics) : State :=
  record_iteration "2024-01-01T00:00:00" (with_metrics st iteration m)
    "aggregation" Json.Null.

Definition diagnosed (st : State) : State :=
  record_iteration "2024-01-01T00:05:00" st "diagnostics" Json.Null.

Definition start : State := init "2024-01-01T00:00:00".

(** Errors 50, then 48: a reduction of 4% between the two aggregations. *)
Definition plateau_state : State :=
  aggregated (diagnosed (aggregated start 1 (snapshot 100 50 30 10 10)))
    2 (snapshot 100 52 30 10 8).

(** One aggregation record and one diagnostics record. *)
Definition one_aggregation_state : State :=
  diagnosed (aggregated start 1 (snapshot 100 50 30 10 10)).

(** A diagnostics record with the errors 50, then the only aggregation
    record, with the errors 30. *)
Definition aggregation_after_diagnostics_state : State :=
  aggregated (diagnosed (with_metrics start 1 (snapshot 100 50 30 10 10)))
    2 (snapshot 100 70 15 5 10).

(** Errors 100, then 5, in the tenth pass of ten. *)
Definition last_pass_success_state : State :=
  diagnosed
    (aggregated (diagnosed (aggregated start 1 (snapshot 200 100 60 10 30)))
       10 (snapshot 200 195 3 1 1)).

(** The HIGH-priority fix of the placeholder diagnostic report. *)
Definition enhanced_headers : Fix :=
  mkFix "Enhanced Headers for IAFD" "HIGH" "20-30% error reduction".

(** Second pass of ten, the only HIGH-priority fix already attempted. *)
Definition nothing_pending_state : State :=
  let st :=
    diagnosed
      (aggregated (diagnosed (aggregated start 1 (snapshot 100 50 30 10 10)))
         2 (snapshot 100 70 15 5 10)) in
  set_fixes st [ "Enhanced Headers for IAFD" ] [ "Enhanced Headers for IAFD" ] [].

(** A testing phase without [test_fix_actively.py] and without
    [compare_metrics.py]: the test is simulated and the placeholder test
    report, which says KEEP, is parsed. *)
Definition passing_tests : TestingEnv :=
  {| test_script := NotFound;
     agg_script := Exited 0 "";
     compare_script := NotFound;
     test_report := placeholder_test_results |}.

(** A cycle whose implementation script fails, and one where it
    succeeds. *)

Definition failing_cycle : Cycle :=
  {| cycle_now := "2024-01-01T00:10:00";
     cycle_fixes := [ enhanced_headers ];
     cycle_impl_script := Exited 1 "patch does not apply";
     cycle_testing := passing_tests |}.

Definition keeping_cycle : Cycle :=
  {| cycle_now := "2024-01-02T00:10:00";
     cycle_fixes := [ enhanced_headers ];
     cycle_impl_script := Exited 0 "";
     cycle_testing := passing_tests |}.

(** Reports of the success evaluator: title failures, URL errors and
    model errors 50, 20, 10 before and 10, 5, 10 after. *)
Definition report_before : metrics := snapshot 100 50 50 10 20.
Definition report_after : metrics := snapshot 100 90 10 10 5.

(** No URL error before, three after; nothing else changes. *)
Definition report_without_url_errors : metrics := snapshot 100 80 20 0 0.
Definition report_with_url_errors : metrics := snapshot 100 80 20 0 3.

(** Title failures, URL errors and model errors 10, 10, 0 before and
    10, 11, 0 after: of the four success indicators, "no new error
    types" and "title failures reduced" hold, and no failure indicator
    fires. *)
Definition report_half_before : metrics := snapshot 100 80 10 0 10.
Definition report_half_after : metrics := snapshot 100 79 10 0 11.

(** A baseline without errors and a later snapshot with five. *)
Definition clean_report : metrics := snapshot 20 20 0 0 0.
Definition later_report : metrics := snapshot 20 15 3 1 1.

Definition clean_baseline_state : State :=
  diagnosed
    (aggregated (diagnosed (aggregated start 1 clean_report)) 2 later_report).


(** Environments of a pass.  The aggregation returns [m]; the diagnosis
    proposes the HIGH-priority fix of the placeholder report. *)
Definition aggregation_of (m : metrics) : AggregationResults :=
  {| output_file := "/plex/iteration/aggregated_logs.txt";
     aggregation_metrics := m |}.

Definition diagnosis : DiagnosticResults :=
  {| report_file := "/plex/iteration/diagnostic_report.md";
     fixes := [ enhanced_headers ];
     error_types := [ "1. URL Fetch Errors (403)"; "2. Title Match Failures" ] |}.

Definition pass_env (m : metrics) (implementation : script)
    (tests : TestingEnv) : PassEnv :=
  {| now_aggregation := "2024-01-01T00:00:00";
     now_diagnostics := "2024-01-01T00:05:00";
     now_implementation := "2024-01-01T00:10:00";
     now_testing := "2024-01-01T00:40:00";
     now_saved := "2024-01-01T00:41:00";
     aggregation := Some (aggregation_of m);
     diagnostics := Some diagnosis;
     implementation_script := implementation;
     testing := tests |}.


(** The implementation script fails in this pass. *)
Definition failing_pass : PassEnv :=
  pass_env (snapshot 100 50 30 10 10)
    (Exited 1 "patch does not apply") passing_tests.

(** The fix is implemented and kept; in the next pass nothing is
    pending. *)
Definition keeping_pass : PassEnv :=
  pass_env (snapshot 100 50 30 10 10) NotFound passing_tests.

Definition later_pass : PassEnv :=
  pass_env (snapshot 100 70 15 5 10) NotFound passing_tests.

(** Errors 10 before and 30 after: a reduction of -200%. *)
Definition regressed_state : State :=
  diagnosed
    (aggregated (diagnosed (aggregated start 1 (snapshot 100 90 5 2 3)))
       2 (snapshot 100 70 15 5 10)).
(** The state after the aggregation of a first pass, with the payload
    [main] records. *)
Definition reported_state : State :=
  record_iteration "2024-01-01T00:00:00"
    (with_metrics start 1 (snapshot 100 50 30 10 10)) "aggregation"
    (aggregation_to_json (aggregation_of (snapshot 100 50 30 10 10))).

End Examples.

(** ** Statements of the specification, in its own words *)

Module Spec.

Import LoopCoordinator.

(** Exit policy: conditions in priority order, the first true one wins. *)
Fixpoint first_true (conditions : list (bool * (string * string)))
  : option (string * string) :=
  match conditions with
  | [] => None
  | (true, outcome) :: _ => Some outcome
  | (false, _) :: rest => first_true rest
  end.

Definition exit_conditions (st : State) (progress : option Progress.t)
    (plateau : bool) : list (bool * (string * string)) :=
  [ (max_iterations st <=? iteration st,
      ("max_iterations_reached", "Maximum iterations reached"));
    (negb (has_more_fixes st),
      ("all_fixes_attempted", "All identified fixes have been attempted"));
    (plateau,
      ("plateau_detected",
       "Progress has plateaued - no significant improvement in last 2 iterations"));
    (match progress with
     | Some p => geb (Progress.total_error_reduction p) 90
     | None => false
     end,
      ("success", "Target improvement achieved (90%+ error reduction)"));
    (detect_regression progress,
      ("regression_detected", "System performance has regressed - stopping")) ].

Definition exit_outcome (st : State) (winner : option (string * string))
  : State * (bool * option string) :=
  match winner with
  | Some (condition, reason) =>
      (set_exit_condition st condition, (true, Some reason))
  | None => (st, (false, None))
  end.

(** Every counter of a snapshot is below [2 ^ 1000] in absolute value:
    far inside the range of a double, where no conversion overflows. *)
Definition in_range (m : metrics) : Prop :=
  map_Forall (fun _ v => Z.abs v < 2 ^ 1000) m.

#[global] Instance in_range_dec (m : metrics) : Decision (in_range m).
Proof. unfold in_range. apply _. Defined.

(** A computation returns a value that satisfies [P], or stops on the
    overflow of a conversion to [float] and on nothing else. *)
Definition returns_unless_overflow {A : Type} (m : result A) (P : A → Prop)
  : Prop :=
  match m with
  | Ret a => P a
  | Raise e => e = OverflowError
  end.

Definition returns {A : Type} (m : result A) : Prop :=
  ∃ a, m = Ret a.

(** The history has at least two records, its first aggregation record
    carries the snapshot [baseline] and its latest one [current]. *)
Definition spans (st : State) (baseline current : metrics) : Prop :=
  (2 ≤ length (iteration_history st))%nat
  ∧ ∃ first_agg latest_agg,
      head (filter is_aggregation (iteration_history st)) = Some first_agg
      ∧ last (filter is_aggregation (iteration_history st)) = Some latest_agg
      ∧ IterationRecord.metrics_snapshot first_agg = Some baseline
      ∧ IterationRecord.metrics_snapshot latest_agg = Some current.

(** Fix bookkeeping: the outcomes are disjoint and were attempted. *)
Definition bookkeeping (st : State) : Prop :=
  (∀ fix_name, fix_name ∈ fixes_successful st → fix_name ∉ fixes_failed st)
  ∧ (∀ fix_name, fix_name ∈ fixes_successful st → fix_name ∈ fixes_attempted st)
  ∧ (∀ fix_name, fix_name ∈ fixes_failed st → fix_name ∈ fixes_attempted st).

End Spec.

(** ** Abbreviations used in the proofs *)

(** The aggregation records of the history, in order. *)
Definition aggregations (st : LoopCoordinator.State)
  : list IterationRecord.t :=
  filter LoopCoordinator.is_aggregation (LoopCoordinator.iteration_history st).

(** A success rate is the integer 0 or a double. *)
Definition is_rate (x : num) : Prop := ∃ f, to_double x = Ret f.

(** The end of the three progress computations: the two success rates
    and their difference, handed to the result [k] builds. *)
Definition rates_chain {A : Type} (k : num → num → num → A)
    (baseline_searches baseline_errors current_searches current_errors : Z)
  : result A :=
  baseline_success ← success_rate_of baseline_searches baseline_errors;
  current_success ← success_rate_of current_searches current_errors;
  success_improvement ← sub current_success baseline_success;
  Ret (k baseline_success current_success success_improvement).

(** The document [LoopCoordinator.save_state] writes. *)
Definition saved_document (now reason : string) (st : LoopCoordinator.State)
  : Json.value :=
  Json.Dict (list_to_map
    [ ("saved_at", Json.Str now);
      ("reason", Json.Str reason);
      ("coordinator_state", LoopCoordinator.state_to_json st) ]).

(** ** States that the loop builds *)

(** Every record of the history carries a snapshot. *)
Definition snapshots_recorded (st : LoopCoordinator.State) : Prop :=
  Forall (fun r => is_Some (IterationRecord.metrics_snapshot r))
    (LoopCoordinator.iteration_history st).

(** Every record of the history carries a snapshot with counters in
    range. *)
Definition snapshots_in_range (st : LoopCoordinator.State) : Prop :=
  Forall
    (fun r => ∃ m, IterationRecord.metrics_snapshot r = Some m
                   ∧ Spec.in_range m)
    (LoopCoordinator.iteration_history st).

(** A record added in the pass that brought the counter to [i], after an
    aggregation that returned the metrics [m]. *)
Definition recorded_in_pass (i : Z) (m : option metrics)
    (r : IterationRecord.t) : Prop :=
  IterationRecord.iteration r = i
  ∧ is_Some m
  ∧ IterationRecord.metrics_snapshot r = m.



(** The state and the flow a run of the loop ends with. *)
Definition state_after
    (run : result (files * LoopCoordinator.State * LoopCoordinator.flow))
    (st : LoopCoordinator.State) : LoopCoordinator.State :=
  match run with
  | Ret (_, st', _) => st'
  | Raise _ => st
  end.

Definition flow_after
    (run : result (files * LoopCoordinator.State * LoopCoordinator.flow))
  : option LoopCoordinator.flow :=
  match run with
  | Ret (_, _, how) => Some how
  | Raise _ => None
  end.

(** What one comparison holds for the metric [name]. *)
Definition compares (self : MetricComparison.t) (name : string)
    (r : MetricComparison.Comparison) : Prop :=
  MetricComparison.metric r = name
  ∧ MetricComparison.baseline_val r = get (MetricComparison.baseline self) name 0
  ∧ MetricComparison.current_val r = get (MetricComparison.current self) name 0
  ∧ MetricComparison.change r = MetricComparison.current_val r - MetricComparison.baseline_val r
  ∧ MetricComparison.improved r = (MetricComparison.current_val r <? MetricComparison.baseline_val r).

(** * Properties *)

Import LoopCoordinator.

(** ** The result monad *)

Lemma bind_Ret_inv {A B : Type} (m : result A) (k : A → result B) (b : B) :
  m ≫= k = Ret b → ∃ a, m = Ret a ∧ k a = Ret b.
Proof. destruct m as [a|e]; simpl; [eauto | discriminate]. Qed.

Tactic Notation "bind_inv" hyp(H) "as" ident(a) ident(Ha) :=
  apply bind_Ret_inv in H; destruct H as (a & Ha & H).

(** ** The scan of [calculate_progress] *)

Lemma filter_is_aggregation_cons (r : IterationRecord.t) (h : list IterationRecord.t) :
  filter is_aggregation (r :: h)
  = if is_aggregation r then r :: filter is_aggregation h
    else filter is_aggregation h.
Proof.
  destruct (is_aggregation r) eqn:E.
  - apply filter_cons_True. by apply Is_true_true.
  - apply filter_cons_False. by apply Is_true_false.
Qed.

Lemma scan_head_last (h : list IterationRecord.t)
    (first_agg latest_agg : option IterationRecord.t) :
  fold_left scan_step h (first_agg, latest_agg)
  = (match first_agg with
     | Some r => Some r
     | None => head (filter is_aggregation h)
     end,
     match last (filter is_aggregation h) with
     | Some r => Some r
     | None => latest_agg
     end).
Proof.
  revert first_agg latest_agg.
  induction h as [|r h IH]; intros first_agg latest_agg.
  - by destruct first_agg.
  - simpl fold_left. rewrite filter_is_aggregation_cons.
    destruct (is_aggregation r); rewrite IH; [|done].
    destruct first_agg; simpl; rewrite ?last_cons;
      by destruct (last (filter is_aggregation h)).
Qed.

(** ** The conversion of an integer to a double

    [float(n)] for a non-zero [n] is a non-zero finite double or
    overflows, and it does not overflow below [2 ^ 1023]. *)

Lemma digits2_pos_size (p : positive) : digits2_pos p = Pos.size p.
Proof. induction p; simpl; congruence. Qed.

Lemma digits2_pos_bound (p : positive) (n : Z) :
  0 ≤ n → Z.pos p < 2 ^ n → Z.pos (digits2_pos p) ≤ n.
Proof.
  intros Hn Hp. rewrite digits2_pos_size.
  assert (H : 2 ^ Z.pos (Pos.size p) ≤ 2 * Z.pos p).
  { change (2 * Z.pos p) with (Z.pos p~0).
    rewrite <- Pos2Z.inj_pow. apply Pos2Z.pos_le_pos, Pos.size_le. }
  destruct (Z.le_gt_cases (Z.pos (Pos.size p)) n) as [|Hgt]; [done|].
  assert (2 ^ (n + 1) ≤ 2 ^ Z.pos (Pos.size p))
    by (apply Z.pow_le_mono_r; lia).
  rewrite Z.pow_add_r in * by lia. lia.
Qed.

Lemma digits2_pos_iter_xO (p k : positive) :
  Z.pos (digits2_pos (Pos.iter xO p k)) = Z.pos (digits2_pos p) + Z.pos k.
Proof.
  induction k as [|k IH] using Pos.peano_ind.
  - simpl. lia.
  - rewrite Pos.iter_succ. simpl. lia.
Qed.

Lemma digits2_pos_succ (p : positive) :
  Z.pos (digits2_pos p) ≤ Z.pos (digits2_pos (Pos.succ p))
  ≤ Z.pos (digits2_pos p) + 1.
Proof. induction p; simpl; lia. Qed.

Lemma iter_pos_nat {A : Type} (f : A → A) (n : positive) (x : A) :
  SpecFloat.iter_pos f n x = Nat.iter (Pos.to_nat n) f x.
Proof.
  revert x. induction n as [n IH|n IH|]; intros x;
    cbn [SpecFloat.iter_pos].
  - rewrite !IH, Pos2Nat.inj_xI.
    replace (S (2 * Pos.to_nat n))%nat
      with (Pos.to_nat n + S (Pos.to_nat n))%nat by lia.
    by rewrite Nat.iter_add, Nat.iter_succ_r.
  - rewrite !IH, Pos2Nat.inj_xO.
    replace (2 * Pos.to_nat n)%nat with (Pos.to_nat n + Pos.to_nat n)%nat
      by lia.
    by rewrite Nat.iter_add.
  - reflexivity.
Qed.

Lemma shr_1_digits (p : positive) (r s : bool) :
  2 ≤ Z.pos (digits2_pos p) →
  ∃ q r' s',
    shr_1 {| shr_m := Z.pos p; shr_r := r; shr_s := s |}
    = {| shr_m := Z.pos q; shr_r := r'; shr_s := s' |}
    ∧ Z.pos (digits2_pos p) = Z.pos (digits2_pos q) + 1.
Proof.
  intros Hd. destruct p as [q|q|]; simpl in *; [| |lia];
    eexists q, _, _; (split; [reflexivity | lia]).
Qed.

Lemma iter_shr_1_digits (n : nat) (p : positive) (r s : bool) :
  Z.of_nat n < Z.pos (digits2_pos p) →
  ∃ q r' s',
    Nat.iter n shr_1 {| shr_m := Z.pos p; shr_r := r; shr_s := s |}
    = {| shr_m := Z.pos q; shr_r := r'; shr_s := s' |}
    ∧ Z.pos (digits2_pos p) = Z.pos (digits2_pos q) + Z.of_nat n.
Proof.
  induction n as [|n IH]; intros Hn.
  - exists p, r, s. split; [reflexivity | lia].
  - destruct IH as (q & r' & s' & Hq & Hd); [lia|].
    destruct (shr_1_digits q r' s') as (q' & r'' & s'' & Hq' & Hd'); [lia|].
    exists q', r'', s''. simpl. rewrite Hq, Hq'. split; [reflexivity | lia].
Qed.

Lemma shr_fexp_canonical (m : positive) (e : Z) :
  Z.pos (digits2_pos m) = 53 → -1021 ≤ e →
  shr_fexp prec emax (Z.pos m) e loc_Exact
  = ({| shr_m := Z.pos m; shr_r := false; shr_s := false |}, e).
Proof.
  intros Hd He. unfold shr_fexp, Zdigits2. rewrite Hd.
  replace (fexp prec emax (53 + e) - e) with 0; [reflexivity|].
  unfold fexp, emin, prec, emax. lia.
Qed.

Lemma binary_round_aux_canonical (s : bool) (m : positive) (e : Z) :
  Z.pos (digits2_pos m) = 53 → -1021 ≤ e ≤ 971 →
  binary_round_aux prec emax s (Z.pos m) e loc_Exact = S754_finite s m e.
Proof.
  intros Hd He.
  unfold binary_round_aux.
  rewrite shr_fexp_canonical by lia. simpl.
  rewrite shr_fexp_canonical by lia. simpl.
  replace (e <=? emax - prec) with true; [reflexivity|].
  unfold emax, prec. symmetry. apply Z.leb_le. lia.
Qed.

(** The second normalisation of [binary_round_aux], after rounding: the
    mantissa has 53 or 54 bits and stays positive. *)
Lemma shr_fexp_rounded (m : positive) (e : Z) :
  53 ≤ Z.pos (digits2_pos m) ≤ 54 → 0 ≤ e →
  ∃ q r s,
    shr_fexp prec emax (Z.pos m) e loc_Exact
    = ({| shr_m := Z.pos q; shr_r := r; shr_s := s |},
       e + (Z.pos (digits2_pos m) - 53)).
Proof.
  intros Hd He. unfold shr_fexp, Zdigits2.
  replace (fexp prec emax (Z.pos (digits2_pos m) + e) - e)
    with (Z.pos (digits2_pos m) - 53)
    by (unfold fexp, emin, prec, emax; lia).
  destruct (Z.pos (digits2_pos m) - 53) as [|k|k] eqn:Ek; [| |lia].
  - exists m, false, false. simpl. by rewrite Z.add_0_r.
  - assert (k = 1%positive) as -> by lia.
    destruct (shr_1_digits m false false) as (q & r & s & Hq & _); [lia|].
    exists q, r, s. unfold shr, shr_record_of_loc.
    cbn [SpecFloat.iter_pos]. by rewrite Hq.
Qed.

Lemma round_nearest_even_pos (q : positive) (l : location) :
  round_nearest_even (Z.pos q) l = Z.pos q
  ∨ round_nearest_even (Z.pos q) l = Z.pos (Pos.succ q).
Proof.
  unfold round_nearest_even.
  destruct l as [|[]]; auto; [destruct (Z.even _); auto|]; right; lia.
Qed.

(** Rounding an integer: a finite double with the sign of the integer,
    or an infinity when the integer has more than 1023 bits. *)
Lemma binary_round_cases (s : bool) (p : positive) :
  (∃ m e, binary_round prec emax s p 0 = S754_finite s m e)
  ∨ (binary_round prec emax s p 0 = S754_infinity s
     ∧ 1024 ≤ Z.pos (digits2_pos p)).
Proof.
  unfold binary_round.
  replace (fexp prec emax (Z.pos (digits2_pos p) + 0))
    with (Z.pos (digits2_pos p) - 53)
    by (unfold fexp, emin, prec, emax; lia).
  unfold shl_align.
  destruct (Z.pos (digits2_pos p) - 53 - 0) as [|k|k] eqn:Hk.
  - left. exists p, 0. apply binary_round_aux_canonical; lia.
  - unfold binary_round_aux.
    assert (Hshift : ∃ q r' s',
      shr_fexp prec emax (Z.pos p) 0 loc_Exact
      = ({| shr_m := Z.pos q; shr_r := r'; shr_s := s' |}, Z.pos k)
      ∧ Z.pos (digits2_pos q) = 53).
    { unfold shr_fexp, Zdigits2, shr.
      replace (fexp prec emax (Z.pos (digits2_pos p) + 0) - 0) with (Z.pos k)
        by (unfold fexp, emin, prec, emax; lia).
      rewrite iter_pos_nat.
      destruct (iter_shr_1_digits (Pos.to_nat k) p false false)
        as (q & r' & s' & Hq & Hd); [lia|].
      exists q, r', s'. simpl. rewrite Hq. split; [done | lia]. }
    destruct Hshift as (q & r' & s' & -> & Hq).
    cbv beta iota. simpl shr_m.
    set (l := loc_of_shr_record _).
    pose proof (digits2_pos_succ q).
    destruct (round_nearest_even_pos q l) as [-> | ->];
      (edestruct shr_fexp_rounded as (q' & r'' & s'' & ->); [| |];
       [lia | lia |]); simpl;
      (match goal with
       | |- context [?a <=? ?b] => destruct (Z.leb_spec a b)
       end;
       [left; eauto | right; split; [done | unfold emax, prec in *; lia]]).
  - left. eexists _, _. apply binary_round_aux_canonical.
    + rewrite digits2_pos_iter_xO. lia.
    + lia.
Qed.

Lemma float_cases (z : Z) :
  Spec.returns_unless_overflow (float z)
    (fun f => z ≠ 0 → is_zero f = false).
Proof.
  unfold float, Spec.returns_unless_overflow.
  destruct z as [|p|p]; simpl binary_normalize.
  - simpl. done.
  - by destruct (binary_round_cases false p) as [(m & e & ->) | [-> _]].
  - by destruct (binary_round_cases true p) as [(m & e & ->) | [-> _]].
Qed.

Lemma float_in_range (z : Z) :
  Z.abs z < 2 ^ 1023 → ∃ f, float z = Ret f.
Proof.
  intros Hz. unfold float.
  destruct z as [|p|p]; simpl binary_normalize; [by eexists| |].
  - destruct (binary_round_cases false p) as [(m & e & ->) | [_ Hd]];
      [by eexists|].
    pose proof (digits2_pos_bound p 1023). lia.
  - destruct (binary_round_cases true p) as [(m & e & ->) | [_ Hd]];
      [by eexists|].
    pose proof (digits2_pos_bound p 1023). lia.
Qed.

(** ** Counters in range *)

Lemma get_in_range (m : metrics) (key : string) (default_ : Z) :
  Spec.in_range m → Z.abs default_ < 2 ^ 1000 →
  Z.abs (get m key default_) < 2 ^ 1000.
Proof.
  intros Hm Hd. unfold get.
  destruct (m !! key) as [v|] eqn:E; simpl; [|done].
  exact (map_Forall_lookup_1 _ m key v Hm E).
Qed.

Lemma error_sum_in_range (m : metrics) :
  Spec.in_range m → Z.abs (error_sum m) < 3 * 2 ^ 1000.
Proof.
  intros Hm. unfold error_sum.
  pose proof (get_in_range m "title_failures" 0 Hm).
  pose proof (get_in_range m "url_errors" 0 Hm).
  pose proof (get_in_range m "model_errors" 0 Hm).
  lia.
Qed.


(** ** Computations that stop on an overflow only *)

Lemma returns_unless_overflow_bind {A B : Type} (m : result A)
    (k : A → result B) (P : A → Prop) (Q : B → Prop) :
  Spec.returns_unless_overflow m P →
  (∀ a, P a → Spec.returns_unless_overflow (k a) Q) →
  Spec.returns_unless_overflow (m ≫= k) Q.
Proof. destruct m as [a|e]; simpl; auto. Qed.

Lemma returns_unless_overflow_weaken {A : Type} (m : result A)
    (P Q : A → Prop) :
  Spec.returns_unless_overflow m P → (∀ a, P a → Q a) →
  Spec.returns_unless_overflow m Q.
Proof. destruct m as [a|e]; simpl; auto. Qed.

Lemma returns_bind {A B : Type} (m : result A) (k : A → result B)
    (P : A → Prop) :
  Spec.returns m → Spec.returns_unless_overflow m P →
  (∀ a, P a → Spec.returns (k a)) →
  Spec.returns (m ≫= k).
Proof. intros [a ->] Hm Hk. simpl. by apply Hk. Qed.

Lemma truediv_cases (diff : Z) (divisor : spec_float) :
  is_zero divisor = false →
  Spec.returns_unless_overflow (truediv (Py.Int diff) (Float divisor))
    (fun x => ∃ f, x = Float f).
Proof.
  intros Hnz. unfold truediv. simpl.
  eapply returns_unless_overflow_bind; [apply float_cases|].
  intros fd _. simpl. rewrite Hnz. simpl. eauto.
Qed.

Lemma truediv_returns (diff : Z) (divisor : spec_float) :
  Z.abs diff < 2 ^ 1023 → is_zero divisor = false →
  Spec.returns (truediv (Py.Int diff) (Float divisor)).
Proof.
  intros Hdiff Hnz. unfold truediv. simpl.
  destruct (float_in_range diff Hdiff) as [fd ->]. simpl.
  rewrite Hnz. by eexists.
Qed.

Lemma percent_of_cases (diff whole : Z) :
  whole ≠ 0 →
  Spec.returns_unless_overflow (percent_of diff whole)
    (fun x => ∃ f, x = Float f).
Proof.
  intros Hnz. unfold percent_of.
  eapply returns_unless_overflow_bind; [apply float_cases|].
  intros fw Hfw.
  eapply returns_unless_overflow_bind; [apply truediv_cases; auto|].
  intros q [f ->]. simpl. eauto.
Qed.

Lemma percent_of_returns (diff whole : Z) :
  Z.abs diff < 2 ^ 1023 → Z.abs whole < 2 ^ 1023 → whole ≠ 0 →
  Spec.returns (percent_of diff whole).
Proof.
  intros Hdiff Hwhole Hnz. unfold percent_of.
  eapply returns_bind;
    [by apply float_in_range | apply float_cases |].
  intros fw Hfw.
  eapply returns_bind;
    [apply truediv_returns; auto | apply truediv_cases; auto |].
  intros q [f ->]. by eexists.
Qed.


Lemma success_rate_of_cases (searches errors : Z) :
  Spec.returns_unless_overflow (success_rate_of searches errors) is_rate.
Proof.
  unfold success_rate_of.
  destruct (Z.ltb_spec 0 searches).
  - eapply returns_unless_overflow_weaken; [apply percent_of_cases; lia|].
    intros x [f ->]. by exists f.
  - simpl. by exists (S754_zero false).
Qed.

Lemma success_rate_of_returns (searches errors : Z) :
  Z.abs searches < 2 ^ 1023 → Z.abs (searches - errors) < 2 ^ 1023 →
  Spec.returns (success_rate_of searches errors).
Proof.
  intros Hs Hd. unfold success_rate_of.
  destruct (Z.ltb_spec 0 searches).
  - apply percent_of_returns; [done | done | lia].
  - by eexists.
Qed.

Lemma error_reduction_returns (baseline_errors current_errors : Z) :
  Z.abs baseline_errors < 2 ^ 1022 → Z.abs current_errors < 2 ^ 1022 →
  Spec.returns
    (if 0 <? baseline_errors
     then percent_of (baseline_errors - current_errors) baseline_errors
     else Ret (Py.Int 0)).
Proof.
  intros Hb Hc.
  assert (2 * 2 ^ 1022 = 2 ^ 1023) by (vm_compute; reflexivity).
  destruct (Z.ltb_spec 0 baseline_errors); [|by eexists].
  apply percent_of_returns; lia.
Qed.

Lemma sub_rates (x y : num) : is_rate x → is_rate y → Spec.returns (sub x y).
Proof.
  intros [fx Hx] [fy Hy]. unfold sub.
  destruct x, y; try (rewrite Hx, Hy; simpl); by eexists.
Qed.

Lemma rates_chain_cases {A : Type} (k : num → num → num → A)
    (baseline_searches baseline_errors current_searches current_errors : Z) :
  Spec.returns_unless_overflow
    (rates_chain k baseline_searches baseline_errors
       current_searches current_errors)
    (fun a => ∃ b c s, a = k b c s).
Proof.
  unfold rates_chain.
  eapply returns_unless_overflow_bind; [apply success_rate_of_cases|].
  intros rb Hrb.
  eapply returns_unless_overflow_bind; [apply success_rate_of_cases|].
  intros rc Hrc.
  destruct (sub_rates rc rb Hrc Hrb) as [s ->]. simpl. eauto.
Qed.

Lemma rates_chain_returns {A : Type} (k : num → num → num → A)
    (baseline current : metrics) :
  Spec.in_range baseline → Spec.in_range current →
  Spec.returns
    (rates_chain k (get baseline "total_search_ops" 1) (error_sum baseline)
       (get current "total_search_ops" 1) (error_sum current)).
Proof.
  intros Hb Hc.
  pose proof (get_in_range baseline "total_search_ops" 1 Hb).
  pose proof (get_in_range current "total_search_ops" 1 Hc).
  pose proof (error_sum_in_range baseline Hb).
  pose proof (error_sum_in_range current Hc).
  assert (4 * 2 ^ 1000 < 2 ^ 1023) by (vm_compute; reflexivity).
  unfold rates_chain.
  eapply returns_bind;
    [apply success_rate_of_returns; lia | apply success_rate_of_cases |].
  intros rb Hrb.
  eapply returns_bind;
    [apply success_rate_of_returns; lia | apply success_rate_of_cases |].
  intros rc Hrc.
  destruct (sub_rates rc rb Hrc Hrb) as [s ->]. simpl. by eexists.
Qed.

(** ** calculate_progress *)

Lemma snapshot_error_sum_Some (m : metrics) :
  snapshot_error_sum (Some m) = Ret (error_sum m).
Proof. reflexivity. Qed.

Lemma calculate_progress_unfold (st : State) :
  calculate_progress st =
  if Z.of_nat (length (iteration_history st)) <? 2 then Ret None
  else
    match head (aggregations st), last (aggregations st) with
    | Some first_agg, Some latest_agg =>
        let baseline := IterationRecord.metrics_snapshot first_agg in
        let current := IterationRecord.metrics_snapshot latest_agg in
        baseline_errors ← snapshot_error_sum baseline;
        current_errors ← snapshot_error_sum current;
        error_reduction ←
          (if 0 <? baseline_errors
           then percent_of (baseline_errors - current_errors) baseline_errors
           else Ret (Py.Int 0));
        baseline_searches ← snapshot_get baseline "total_search_ops" 1;
        current_searches ← snapshot_get current "total_search_ops" 1;
        baseline_success_rate ← success_rate_of baseline_searches baseline_errors;
        current_success_rate ← success_rate_of current_searches current_errors;
        success_improvement ← sub current_success_rate baseline_success_rate;
        Ret (Some
          {| Progress.total_error_reduction := round2 error_reduction;
             Progress.success_rate_improvement := round2 success_improvement;
             Progress.iterations := Z.of_nat (length (aggregations st));
             Progress.fixes_successful := Z.of_nat (length (fixes_successful st));
             Progress.fixes_failed := Z.of_nat (length (fixes_failed st));
             Progress.baseline_errors := baseline_errors;
             Progress.current_errors := current_errors |})
    | _, _ => Ret None
    end.
Proof.
  unfold calculate_progress, aggregations.
  destruct (_ <? 2); [done|].
  rewrite scan_head_last.
  destruct (head _) as [first_agg|] eqn:Eh.
  - destruct (last _) as [latest_agg|] eqn:El; [done|].
    apply last_None in El. by rewrite El in Eh.
  - done.
Qed.

(** C4 (as amended): [calculate_progress] returns [None] exactly when the
    history has fewer than two records of any phase, or has no
    aggregation record at all.  With two or more records of which a
    single one is an aggregation record, carrying a snapshot whose
    counters are in range, it returns a progress over one iteration
    whose baseline and current errors are both those of that record. *)
Theorem calculate_progress_none_iff (st : State) :
  (calculate_progress st = Ret None
   ↔ (length (iteration_history st) < 2)%nat
     ∨ filter is_aggregation (iteration_history st) = [])
  ∧ ∀ (r : IterationRecord.t) (m : metrics),
      (2 ≤ length (iteration_history st))%nat →
      filter is_aggregation (iteration_history st) = [r] →
      IterationRecord.metrics_snapshot r = Some m →
      Spec.in_range m →
      ∃ progress,
        calculate_progress st = Ret (Some progress)
        ∧ Progress.iterations progress = 1
        ∧ Progress.baseline_errors progress = error_sum m
        ∧ Progress.current_errors progress = error_sum m.
Proof.
  split.
  { rewrite calculate_progress_unfold. unfold aggregations.
    destruct (Z.ltb_spec (Z.of_nat (length (iteration_history st))) 2)
      as [Hlt|Hge].
    { split; [left; lia | done]. }
    destruct (filter is_aggregation (iteration_history st)) as [|r l] eqn:Ef.
    { split; [by right | done]. }
    split; [|intros [?|?]; [lia | done]].
    intros H. exfalso. change (head (r :: l)) with (Some r) in H.
    destruct (last (r :: l)) as [r'|] eqn:El; [|by apply last_None in El].
    cbv zeta in H.
    repeat (match type of H with
            | (?m ≫= _) = Ret None =>
                destruct m; simpl in H; [|discriminate]
            end).
    discriminate. }
  intros r m Hlen Hfilter Hsnapshot Hm.
  pose proof (get_in_range m "total_search_ops" 1 Hm) as Hsearches.
  pose proof (error_sum_in_range m Hm) as Herrors.
  assert (3 * 2 ^ 1000 < 2 ^ 1022) as Hsmall by (vm_compute; reflexivity).
  assert (4 * 2 ^ 1000 < 2 ^ 1023) as Hlarge by (vm_compute; reflexivity).
  assert (Z.of_nat (length (aggregations st)) = 1) as Hone
    by (unfold aggregations; by rewrite Hfilter).
  rewrite calculate_progress_unfold, Hone. unfold aggregations.
  replace (Z.of_nat (length (iteration_history st)) <? 2) with false
    by (symmetry; apply Z.ltb_ge; lia).
  rewrite Hfilter.
  change (head [r]) with (Some r). change (last [r]) with (Some r).
  cbv beta iota zeta. rewrite Hsnapshot, !snapshot_error_sum_Some. simpl.
  destruct (error_reduction_returns (error_sum m) (error_sum m))
    as [error_reduction ->]; [lia | lia |]. simpl.
  pose proof (success_rate_of_cases (get m "total_search_ops" 1) (error_sum m))
    as Hrate.
  destruct (success_rate_of_returns (get m "total_search_ops" 1) (error_sum m))
    as [rate Erate]; [lia | lia |].
  rewrite Erate in Hrate |- *. simpl in Hrate |- *.
  destruct (sub_rates rate rate Hrate Hrate) as [success_improvement ->].
  simpl. eexists. split; [reflexivity|]. done.
Qed.

(** C4 (witness): a diagnostics record with other errors comes first. *)
Lemma calculate_progress_none_iff_witness :
  ∃ progress,
    calculate_progress Examples.aggregation_after_diagnostics_state
    = Ret (Some progress)
    ∧ Progress.iterations progress = 1
    ∧ Progress.baseline_errors progress = 30
    ∧ Progress.current_errors progress = 30.
Proof.
  destruct (calculate_progress_none_iff
              Examples.aggregation_after_diagnostics_state) as [_ H].
  apply (H {| IterationRecord.iteration := 2;
              IterationRecord.phase := "aggregation";
              IterationRecord.timestamp := "2024-01-01T00:00:00";
              IterationRecord.results := Json.Null;
              IterationRecord.metrics_snapshot :=
                Some (Examples.snapshot 100 70 15 5 10) |}
           (Examples.snapshot 100 70 15 5 10)).
  - vm_compute. lia.
  - vm_compute. reflexivity.
  - reflexivity.
  - apply (bool_decide_unpack _). vm_compute. exact I.
Defined.

(** C4 (counterexample): with a single aggregation record and a diagnostics
    record, [calculate_progress] returns a progress, the record being both
    the baseline and the current one. *)
Lemma calculate_progress_one_aggregation :
  length (filter is_aggregation
            (iteration_history Examples.one_aggregation_state)) = 1%nat
  ∧ calculate_progress Examples.one_aggregation_state
    = Ret (Some
        {| Progress.total_error_reduction := Float (S754_zero false);
           Progress.success_rate_improvement := Float (S754_zero false);
           Progress.iterations := 1;
           Progress.fixes_successful := 0;
           Progress.fixes_failed := 0;
           Progress.baseline_errors := 50;
           Progress.current_errors := 50 |})
  ∧ calculate_progress Examples.one_aggregation_state ≠ Ret None.
Proof.
  split; [vm_compute; reflexivity|].
  split; [vm_compute; reflexivity|].
  vm_compute. discriminate.
Qed.

(** ** detect_plateau *)

Lemma plateau_loop_length (recent : list IterationRecord.t)
    (indices : list nat) (improvements result_ : list num) :
  plateau_loop recent indices improvements = Ret result_ →
  (length result_ ≤ length improvements + length indices)%nat.
Proof.
  revert improvements.
  induction indices as [|i rest IH]; intros improvements H; simpl in H.
  - injection H as <-. lia.
  - bind_inv H as r1 Hr1. bind_inv H as r0 Hr0.
    bind_inv H as prev_errors Hprev. bind_inv H as curr_errors Hcurr.
    destruct (0 <? prev_errors).
    + bind_inv H as improvement Himp. apply IH in H. rewrite length_app in H. simpl in *. lia.
    + apply IH in H. simpl. lia.
Qed.

Lemma last_two_length {A : Type} (l : list A) :
  (length (last_two l) ≤ 2)%nat.
Proof. unfold last_two. rewrite length_drop. lia. Qed.

(** The window [agg_results[-2:]] yields at most one improvement, and two
    are asked for: [detect_plateau] raises or answers [False]. *)
Lemma detect_plateau_false_or_raise (st : State)
    (progress : option Progress.t) :
  detect_plateau st progress = Ret false
  ∨ ∃ e, detect_plateau st progress = Raise e.
Proof.
  unfold detect_plateau.
  destruct (_ <? 3); [by left|].
  destruct (_ <? 2); [by left|].
  destruct (plateau_loop _ _ _) as [improvements|e] eqn:E; simpl;
    [|right; by exists e].
  left. apply plateau_loop_length in E.
  rewrite length_seq in E.
  pose proof (last_two_length (filter is_aggregation (iteration_history st))).
  simpl in E.
  replace (2 <=? Z.of_nat (length improvements)) with false; [done|].
  symmetry. apply Z.leb_gt. lia.
Qed.

(** C1 (code at the failing input): [detect_plateau] never returns [True].
    For the history with errors 50 then 48, three records and two
    aggregation records, the improvement of the last transition is 4.0,
    below 5, and [detect_plateau] still answers [False]. *)
Theorem detect_plateau_never_fires :
  (∀ st progress,
     detect_plateau st progress = Ret false
     ∨ ∃ e, detect_plateau st progress = Raise e)
  ∧ length (iteration_history Examples.plateau_state) = 3%nat
  ∧ length (filter is_aggregation
              (iteration_history Examples.plateau_state)) = 2%nat
  ∧ plateau_loop
      (last_two (filter is_aggregation
                   (iteration_history Examples.plateau_state)))
      [0%nat] []
    = Ret [Float (S754_finite false 4503599627370496 (-50))]
  ∧ ltb (Float (S754_finite false 4503599627370496 (-50))) 5 = true
  ∧ (∀ progress,
       detect_plateau Examples.plateau_state progress = Ret false).
Proof.
  split; [exact detect_plateau_false_or_raise|].
  repeat split; try (vm_compute; reflexivity).
Qed.

(** ** should_exit *)

(** C5: the five exit conditions are tried in the order max-iterations,
    no-more-fixes, plateau, success, regression, and the first that holds
    decides; when the iteration budget is used up the answer is
    [max_iterations_reached] whatever the others say. *)
Theorem should_exit_priority (st : State) (progress : option Progress.t) :
  calculate_progress st = Ret progress →
  (max_iterations st ≤ iteration st →
     should_exit st
     = Ret (set_exit_condition st "max_iterations_reached",
            (true, Some "Maximum iterations reached")))
  ∧ (∀ plateau,
       detect_plateau st progress = Ret plateau →
       should_exit st
       = Ret (Spec.exit_outcome st
                (Spec.first_true (Spec.exit_conditions st progress plateau)))).
Proof.
  intros Hp. unfold should_exit. rewrite Hp. simpl.
  split.
  - intros Hmax. apply Z.leb_le in Hmax. by rewrite Hmax.
  - intros plateau Hplateau.
    destruct (max_iterations st <=? iteration st); [done|].
    destruct (negb (has_more_fixes st)); [done|].
    rewrite Hplateau. simpl.
    destruct plateau; [done|].
    destruct (match progress with Some _ => _ | None => _ end); [done|].
    by destruct (detect_regression progress).
Qed.

Lemma should_exit_priority_witness :
  ∃ p,
    calculate_progress Examples.last_pass_success_state = Ret (Some p)
    ∧ geb (Progress.total_error_reduction p) 90 = true
    ∧ should_exit Examples.last_pass_success_state
      = Ret (set_exit_condition Examples.last_pass_success_state
               "max_iterations_reached",
             (true, Some "Maximum iterations reached")).
Proof.
  eexists. split; [vm_compute; reflexivity|].
  split; [vm_compute; reflexivity|].
  refine (proj1 (should_exit_priority Examples.last_pass_success_state _ _) _).
  - vm_compute. reflexivity.
  - vm_compute. discriminate.
Defined.




(** ** The zero-baseline guard *)

Lemma calculate_improvement_zero_baseline (baseline current : metrics) :
  error_sum baseline = 0 →
  calculate_improvement baseline current
  = rates_chain
      (fun _ _ success_improvement =>
         mkImprovement (Py.Int 0) (round2 success_improvement))
      (get baseline "total_search_ops" 1) (error_sum baseline)
      (get current "total_search_ops" 1) (error_sum current).
Proof. intros Hzero. unfold calculate_improvement. by rewrite Hzero. Qed.

Lemma calculate_overall_improvement_zero_baseline
    (baseline current : metrics) :
  error_sum baseline = 0 →
  MetricComparison.calculate_overall_improvement
    (MetricComparison.mk baseline current)
  = rates_chain
      (fun baseline_success current_success success_improvement =>
         MetricComparison.mkOverall 0 (error_sum current) (Py.Int 0)
           (round2 baseline_success) (round2 current_success)
           (round2 success_improvement))
      (get baseline "total_search_ops" 1) (error_sum baseline)
      (get current "total_search_ops" 1) (error_sum current).
Proof.
  intros Hzero. unfold MetricComparison.calculate_overall_improvement.
  simpl. by rewrite Hzero.
Qed.

Lemma calculate_progress_zero_baseline (st : State)
    (first_agg latest_agg : IterationRecord.t) (baseline current : metrics) :
  error_sum baseline = 0 →
  (2 ≤ length (iteration_history st))%nat →
  head (filter is_aggregation (iteration_history st)) = Some first_agg →
  last (filter is_aggregation (iteration_history st)) = Some latest_agg →
  IterationRecord.metrics_snapshot first_agg = Some baseline →
  IterationRecord.metrics_snapshot latest_agg = Some current →
  calculate_progress st
  = rates_chain
      (fun _ _ success_improvement =>
         Some
           {| Progress.total_error_reduction := Py.Int 0;
              Progress.success_rate_improvement := round2 success_improvement;
              Progress.iterations := Z.of_nat (length (aggregations st));
              Progress.fixes_successful :=
                Z.of_nat (length (fixes_successful st));
              Progress.fixes_failed := Z.of_nat (length (fixes_failed st));
              Progress.baseline_errors := 0;
              Progress.current_errors := error_sum current |})
      (get baseline "total_search_ops" 1) (error_sum baseline)
      (get current "total_search_ops" 1) (error_sum current).
Proof.
  intros Hzero Hlen Hhead Hlast Hfirst Hlatest.
  rewrite calculate_progress_unfold. unfold aggregations.
  replace (Z.of_nat (length (iteration_history st)) <? 2) with false
    by (symmetry; apply Z.ltb_ge; lia).
  rewrite Hhead, Hlast. cbv zeta. rewrite Hfirst, Hlatest.
  rewrite !snapshot_error_sum_Some. simpl. by rewrite Hzero.
Qed.

Lemma returns_with {A : Type} (m : result A) (P : A → Prop) :
  Spec.returns m → Spec.returns_unless_overflow m P → ∃ a, m = Ret a ∧ P a.
Proof. intros [a ->] Ha. by exists a. Qed.

(** C9: when the error sum of the baseline snapshot is 0, the error
    reduction that [calculate_improvement],
    [calculate_overall_improvement] and [calculate_progress] return is
    the integer 0: no division by zero, no NaN, no 100.  The only
    exception any of them can raise is the overflow of a conversion to
    [float], and with counters in range each of them returns. *)
Theorem zero_baseline_error_reduction (baseline current : metrics) :
  error_sum baseline = 0 →
  (Spec.returns_unless_overflow (calculate_improvement baseline current)
     (fun r => error_reduction r = Py.Int 0)
   ∧ Spec.returns_unless_overflow
       (MetricComparison.calculate_overall_improvement
          (MetricComparison.mk baseline current))
       (fun r => MetricComparison.error_reduction r = Py.Int 0)
   ∧ (∀ st,
        Spec.spans st baseline current →
        Spec.returns_unless_overflow (calculate_progress st)
          (fun progress =>
             ∃ p, progress = Some p
                  ∧ Progress.total_error_reduction p = Py.Int 0)))
  ∧ (Spec.in_range baseline → Spec.in_range current →
     Spec.returns (calculate_improvement baseline current)
     ∧ Spec.returns
         (MetricComparison.calculate_overall_improvement
            (MetricComparison.mk baseline current))
     ∧ (∀ st,
          Spec.spans st baseline current →
          Spec.returns (calculate_progress st))).
Proof.
  intros Hzero. split; [split; [|split] | intros Hb Hc; split; [|split]].
  - rewrite calculate_improvement_zero_baseline by done.
    eapply returns_unless_overflow_weaken; [apply rates_chain_cases|].
    by intros r (b & c & s & ->).
  - rewrite calculate_overall_improvement_zero_baseline by done.
    eapply returns_unless_overflow_weaken; [apply rates_chain_cases|].
    by intros r (b & c & s & ->).
  - intros st (Hlen & first_agg & latest_agg & Hhead & Hlast & Hfirst & Hlatest).
    erewrite calculate_progress_zero_baseline by done.
    eapply returns_unless_overflow_weaken; [apply rates_chain_cases|].
    intros r (b & c & s & ->). by eexists.
  - rewrite calculate_improvement_zero_baseline by done.
    by apply rates_chain_returns.
  - rewrite calculate_overall_improvement_zero_baseline by done.
    by apply rates_chain_returns.
  - intros st (Hlen & first_agg & latest_agg & Hhead & Hlast & Hfirst & Hlatest).
    erewrite calculate_progress_zero_baseline by done.
    by apply rates_chain_returns.
Qed.

Lemma zero_baseline_error_reduction_witness :
  (∃ r, calculate_improvement Examples.clean_report Examples.later_report
        = Ret r
        ∧ error_reduction r = Py.Int 0)
  ∧ (∃ r, MetricComparison.calculate_overall_improvement
            (MetricComparison.mk Examples.clean_report Examples.later_report)
          = Ret r
          ∧ MetricComparison.error_reduction r = Py.Int 0)
  ∧ (∃ progress,
       calculate_progress Examples.clean_baseline_state = Ret progress
       ∧ ∃ p, progress = Some p
              ∧ Progress.total_error_reduction p = Py.Int 0).
Proof.
  destruct (zero_baseline_error_reduction
              Examples.clean_report Examples.later_report)
    as ((H1 & H2 & H3) & Hreturns).
  { vm_compute. reflexivity. }
  destruct Hreturns as (R1 & R2 & R3).
  { apply (bool_decide_unpack _). vm_compute. exact I. }
  { apply (bool_decide_unpack _). vm_compute. exact I. }
  assert (Hspans : Spec.spans Examples.clean_baseline_state
                     Examples.clean_report Examples.later_report).
  { split; [vm_compute; lia|].
    eexists _, _. repeat split; vm_compute; reflexivity. }
  split; [by apply returns_with|].
  split; [by apply returns_with|].
  apply returns_with; auto.
Defined.

(** ** Fix bookkeeping *)

Lemma pending_fix_not_attempted (st : State) (fixes rest : list Fix)
    (f : Fix) :
  pending_fixes st fixes = f :: rest → name f ∉ fixes_attempted st.
Proof.
  intros E.
  assert (Hin : f ∈ pending_fixes st fixes) by (rewrite E; left).
  unfold pending_fixes in Hin. apply list_elem_of_filter in Hin.
  by destruct Hin as [[_ ?] _].
Qed.

Ltac solve_bookkeeping :=
  solve [ unfold Spec.bookkeeping in *; simpl in *;
          (split; [|split]); intros ?;
          rewrite ?elem_of_app, ?list_elem_of_singleton, ?elem_of_nil;
          unfold not in *; intuition (subst; eauto) ].

(** A cycle whose implementation step does not fail keeps the
    bookkeeping: the fix tested is the one just added to
    [fixes_attempted], and it was in none of the three lists before. *)
Lemma run_cycle_bookkeeping (st : State) (c : Cycle) :
  failed_run (cycle_impl_script c) = false →
  Spec.bookkeeping st → Spec.bookkeeping (run_cycle st c).
Proof.
  intros Himpl (Hdisjoint & Hsucc & Hfail).
  unfold run_cycle, implement_and_test, execute_implementation.
  destruct (pending_fixes st (cycle_fixes c)) as [|f rest] eqn:Ep; [done|].
  apply pending_fix_not_attempted in Ep.
  assert (Himplemented :
    match cycle_impl_script c with
    | Exited returncode stderr =>
        if negb (returncode =? 0)
        then (set_fixes st (fixes_attempted st) (fixes_successful st)
                (fixes_failed st ++ [name f]), Failed (name f) stderr)
        else (set_fixes st (fixes_attempted st ++ [name f])
                (fixes_successful st) (fixes_failed st),
              Implemented (name f) f)
    | NotFound =>
        (set_fixes st (fixes_attempted st ++ [name f])
           (fixes_successful st) (fixes_failed st), Implemented (name f) f)
    end
    = (set_fixes st (fixes_attempted st ++ [name f])
         (fixes_successful st) (fixes_failed st), Implemented (name f) f)).
  { destruct (cycle_impl_script c) as [|returncode stderr]; [done|].
    simpl in Himpl. by rewrite Himpl. }
  rewrite Himplemented. clear Himplemented.
  unfold execute_testing.
  destruct (failed_run (test_script _)); [|destruct (failed_run (agg_script _));
    [|destruct (failed_run (compare_script _))]];
    simpl; try solve_bookkeeping.
  destruct (String.eqb _ "KEEP"); [|destruct (String.eqb _ "ROLLBACK")];
    solve_bookkeeping.
Qed.

(** C3 (code at the failing input): starting from a fresh state, a cycle
    whose implementation script fails puts the fix in [fixes_failed] and
    not in [fixes_attempted]; the fix stays pending, and when the next
    cycle implements it and the test says KEEP it is both in
    [fixes_successful] and in [fixes_failed]. *)
Theorem failed_implementation_breaks_bookkeeping :
  let st1 := run_cycles Examples.start [ Examples.failing_cycle ] in
  let st2 :=
    run_cycles Examples.start
      [ Examples.failing_cycle; Examples.keeping_cycle ] in
  Spec.bookkeeping Examples.start
  ∧ fixes_failed st1 = [ "Enhanced Headers for IAFD" ]
  ∧ fixes_attempted st1 = []
  ∧ pending_fixes st1 (cycle_fixes Examples.keeping_cycle)
    = [ Examples.enhanced_headers ]
  ∧ fixes_attempted st2 = [ "Enhanced Headers for IAFD" ]
  ∧ fixes_successful st2 = [ "Enhanced Headers for IAFD" ]
  ∧ fixes_failed st2 = [ "Enhanced Headers for IAFD" ]
  ∧ ¬ Spec.bookkeeping st1
  ∧ ¬ Spec.bookkeeping st2.
Proof.
  intros st1 st2.
  assert (H1 : fixes_failed st1 = [ "Enhanced Headers for IAFD" ])
    by (vm_compute; reflexivity).
  assert (H1' : fixes_attempted st1 = []) by (vm_compute; reflexivity).
  assert (H2 : fixes_successful st2 = [ "Enhanced Headers for IAFD" ])
    by (vm_compute; reflexivity).
  assert (H2' : fixes_failed st2 = [ "Enhanced Headers for IAFD" ])
    by (vm_compute; reflexivity).
  split; [solve_bookkeeping|].
  do 6 (split; [first [assumption | vm_compute; reflexivity]|]).
  split.
  - intros (_ & _ & Hfailed).
    specialize (Hfailed "Enhanced Headers for IAFD").
    rewrite H1, H1' in Hfailed.
    apply (not_elem_of_nil "Enhanced Headers for IAFD"), Hfailed. left.
  - intros (Hdisjoint & _).
    apply (Hdisjoint "Enhanced Headers for IAFD"); rewrite ?H2, ?H2'; left.
Qed.

(** Without a failing implementation step the bookkeeping holds after
    any sequence of cycles. *)
Lemma run_cycles_bookkeeping (st : State) (cs : list Cycle) :
  Forall (fun c => failed_run (cycle_impl_script c) = false) cs →
  Spec.bookkeeping st → Spec.bookkeeping (run_cycles st cs).
Proof.
  unfold run_cycles. intros Hcs. revert st.
  induction Hcs as [|c cs Hc _ IH]; intros st Hst; simpl; [done|].
  apply IH. by apply run_cycle_bookkeeping.
Qed.

(** ** Saving and loading the state *)

(** C2 (code at the failing input): [load_state] returns the document
    [save_state] wrote, which wraps the state under ['coordinator_state']
    beside ['saved_at'] and ['reason']; it has none of the keys of the
    state, such as ['iteration'].  So it is for the fresh state, with its
    empty collections and null [exit_condition]. *)
Theorem load_state_returns_wrapper (fs : files) (base_dir now reason : string)
    (st : State) :
  load_state (save_state fs base_dir now st reason) (state_file base_dir)
  = Ret (saved_document now reason st)
  ∧ Json.lookup (saved_document now reason st) "coordinator_state"
    = Some (state_to_json st)
  ∧ Json.lookup (saved_document now reason st) "iteration" = None
  ∧ Json.lookup (state_to_json st) "iteration"
    = Some (Json.Int (iteration st))
  ∧ Json.lookup
      (saved_document "2024-01-01T00:20:00" "checkpoint" Examples.start)
      "exit_condition" = None
  ∧ Json.lookup (state_to_json Examples.start) "exit_condition"
    = Some Json.Null.
Proof.
  split.
  { unfold load_state, save_state. by rewrite lookup_insert_eq. }
  repeat split; reflexivity.
Qed.

(** The state manager, which reads the ['state'] key back, returns what
    was saved. *)
Lemma state_manager_round_trip (fs : files) (now reason : string)
    (self : StateManager.t) :
  StateManager.load_state (StateManager.save_state fs now self reason) self
  = Ret self.
Proof.
  unfold StateManager.load_state, StateManager.save_state.
  rewrite lookup_insert_eq. by destruct self.
Qed.

(** ** The loop of [main] *)

(** *** What a pass changes *)

Lemma should_exit_state (st st' : State) (exit_ : bool)
    (reason : option string) :
  should_exit st = Ret (st', (exit_, reason)) →
  (exit_ = false ∧ st' = st)
  ∨ (exit_ = true ∧ ∃ condition, st' = set_exit_condition st condition).
Proof.
  intros H. unfold should_exit in H. bind_inv H as progress Hprogress.
  destruct (max_iterations st <=? iteration st).
  { injection H as <- <- <-. right. eauto. }
  destruct (negb (has_more_fixes st)).
  { injection H as <- <- <-. right. eauto. }
  bind_inv H as plateau Hplateau.
  destruct plateau.
  { injection H as <- <- <-. right. eauto. }
  destruct (match progress with Some _ => _ | None => _ end).
  { injection H as <- <- <-. right. eauto. }
  destruct (detect_regression progress).
  { injection H as <- <- <-. right. eauto. }
  injection H as <- <- <-. by left.
Qed.

(** [execute_implementation] and [execute_testing] touch the three fix
    lists only. *)
Lemma execute_implementation_fixes_only (st : State) (fixes : list Fix)
    (s : script) :
  ∃ attempted successful failed,
    fst (execute_implementation st fixes s)
    = set_fixes st attempted successful failed.
Proof.
  unfold execute_implementation.
  destruct (pending_fixes st fixes) as [|f rest].
  { exists (fixes_attempted st), (fixes_successful st), (fixes_failed st).
    by destruct st. }
  destruct s as [|returncode stderr]; [by eexists _, _, _|].
  destruct (negb (returncode =? 0)); by eexists _, _, _.
Qed.

Lemma execute_testing_fixes_only (st : State) (r : ImplementationResults)
    (env : TestingEnv) :
  ∃ attempted successful failed,
    fst (execute_testing st r env)
    = set_fixes st attempted successful failed.
Proof.
  assert (Hsame : ∃ attempted successful failed,
            st = set_fixes st attempted successful failed).
  { exists (fixes_attempted st), (fixes_successful st), (fixes_failed st).
    by destruct st. }
  unfold execute_testing.
  destruct (failed_run (test_script env)); [done|].
  destruct (failed_run (agg_script env)); [done|].
  destruct (failed_run (compare_script env)); [done|].
  simpl.
  destruct (String.eqb _ "KEEP"); [by eexists _, _, _|].
  destruct (String.eqb _ "ROLLBACK"); [by eexists _, _, _|done].
Qed.

Ltac close_frame :=
  eexists; split; [simpl; eassumption|];
  split; [simpl; lia|];
  simpl; repeat (constructor; [assumption|]); constructor.

(** One pass: the counter goes up by one; [max_iterations] and
    [start_time] stay; the metrics are those of the aggregation, the
    baseline being set in the pass that brings the counter to 1 and only
    there; at most four records are added to the history, all with the
    new counter and the snapshot of the pass; and the exit condition is
    untouched unless the pass ends the loop. *)
Lemma main_pass_frame (fs fs' : files) (base_dir : string) (env : PassEnv)
    (st st' : State) (how : flow) :
  main_pass fs base_dir env st = Ret (fs', st', how) →
  iteration st' = iteration st + 1
  ∧ max_iterations st' = max_iterations st
  ∧ start_time st' = start_time st
  ∧ baseline_metrics st'
    = match aggregation env with
      | Some a =>
          if iteration st =? 0 then Some (aggregation_metrics a)
          else baseline_metrics st
      | None => baseline_metrics st
      end
  ∧ current_metrics st'
    = match aggregation env with
      | Some a => Some (aggregation_metrics a)
      | None => current_metrics st
      end
  ∧ (how = Continue → exit_condition st' = exit_condition st)
  ∧ ∃ added : list IterationRecord.t,
      iteration_history st' = (iteration_history st ++ added)%list
      ∧ (length added ≤ 4)%nat
      ∧ Forall
          (recorded_in_pass (iteration st + 1)
             (aggregation_metrics <$> aggregation env))
          added.
Proof.
  unfold main_pass. intros H.
  assert (Hone : ∀ z, (z + 1 =? 1) = (z =? 0)).
  { intros z. destruct (Z.eqb_spec z 0), (Z.eqb_spec (z + 1) 1); lia. }
  destruct (aggregation env) as [a|].
  2:{ injection H as <- <- <-. simpl. repeat split; try done.
      exists []. rewrite app_nil_r.
      split; [done|]. split; [simpl; lia | constructor]. }
  simpl in H. rewrite Hone in H.
  set (st1 := record_iteration _ _ _ _) in H.
  assert (H1 : iteration st1 = iteration st + 1
               ∧ max_iterations st1 = max_iterations st
               ∧ start_time st1 = start_time st
               ∧ baseline_metrics st1
                 = (if iteration st =? 0 then Some (aggregation_metrics a)
                    else baseline_metrics st)
               ∧ current_metrics st1 = Some (aggregation_metrics a)
               ∧ exit_condition st1 = exit_condition st
               ∧ ∃ r : IterationRecord.t, iteration_history st1 = (iteration_history st ++ [r])%list
                      ∧ recorded_in_pass (iteration st + 1)
                          (Some (aggregation_metrics a)) r).
  { subst st1. destruct (iteration st =? 0); simpl;
      (repeat split; try done); eexists; (split; [done|]);
      by repeat split. }
  clearbody st1.
  destruct H1 as (Hi & Hm & Hs & Hb & Hc & He & r1 & Hh & Hr1).
  destruct (diagnostics env) as [d|].
  2:{ injection H as <- <- <-. repeat split; try done.
      close_frame. }
  set (st2 := record_iteration _ st1 _ _) in H.
  destruct (execute_implementation st2 (fixes d) (implementation_script env))
    as [st3 ir] eqn:Eimpl.
  destruct (execute_implementation_fixes_only st2 (fixes d)
              (implementation_script env)) as (a3 & s3 & f3 & Hst3).
  rewrite Eimpl in Hst3. simpl in Hst3.
  assert (Hr2 : recorded_in_pass (iteration st + 1)
                  (Some (aggregation_metrics a))
                  (IterationRecord.mk (iteration st1) "diagnostics"
                     (now_diagnostics env) (diagnostics_to_json d)
                     (current_metrics st1))).
  { rewrite Hi, Hc. by repeat split. }
  assert (Hbase : iteration st3 = iteration st + 1
                  ∧ max_iterations st3 = max_iterations st
                  ∧ start_time st3 = start_time st
                  ∧ baseline_metrics st3
                    = (if iteration st =? 0 then Some (aggregation_metrics a)
                       else baseline_metrics st)
                  ∧ current_metrics st3 = Some (aggregation_metrics a)
                  ∧ exit_condition st3 = exit_condition st
                  ∧ iteration_history st3
                    = (iteration_history st
                      ++ [r1;
                          IterationRecord.mk (iteration st1) "diagnostics"
                            (now_diagnostics env) (diagnostics_to_json d)
                            (current_metrics st1)])%list).
  { subst st3 st2. simpl. rewrite Hh, <- app_assoc. by repeat split. }
  clear Hst3 Eimpl. clearbody st2.
  destruct Hbase as (Hi3 & Hm3 & Hs3 & Hb3 & Hc3 & He3 & Hh3).
  destruct ir as [message|fix_name error|fix_name fix_details].
  - bind_inv H as res Hres. destruct res as [st4 [exit_ reason]].
    injection H as <- <- <-.
    destruct (should_exit_state _ _ _ _ Hres)
      as [[-> ->] | [-> [condition ->]]]; simpl;
      (repeat split; try done); close_frame.
  - injection H as <- <- <-. repeat split; try done. close_frame.
  - set (st4 := record_iteration _ st3 _ _) in H.
    destruct (execute_testing st4 _ (testing env)) as [st5 tr] eqn:Etest.
    destruct (execute_testing_fixes_only st4
                (Implemented fix_name fix_details) (testing env))
      as (a5 & s5 & f5 & Hst5).
    rewrite Etest in Hst5. simpl in Hst5.
    assert (Hr3 : recorded_in_pass (iteration st + 1)
                    (Some (aggregation_metrics a))
                    (IterationRecord.mk (iteration st3) "implementation"
                       (now_implementation env)
                       (implementation_to_json
                          (Implemented fix_name fix_details))
                       (current_metrics st3))).
    { rewrite Hi3, Hc3. by repeat split. }
    assert (Hbase5 : iteration st5 = iteration st + 1
                     ∧ max_iterations st5 = max_iterations st
                     ∧ start_time st5 = start_time st
                     ∧ baseline_metrics st5
                       = (if iteration st =? 0
                          then Some (aggregation_metrics a)
                          else baseline_metrics st)
                     ∧ current_metrics st5 = Some (aggregation_metrics a)
                     ∧ exit_condition st5 = exit_condition st
                     ∧ iteration_history st5
                       = (iteration_history st
                         ++ [r1;
                             IterationRecord.mk (iteration st1) "diagnostics"
                               (now_diagnostics env) (diagnostics_to_json d)
                               (current_metrics st1);
                             IterationRecord.mk (iteration st3)
                               "implementation" (now_implementation env)
                               (implementation_to_json
                                  (Implemented fix_name fix_details))
                               (current_metrics st3)])%list).
    { subst st5 st4. simpl. rewrite Hh3, <- app_assoc. by repeat split. }
    clear Hst5 Etest. clearbody st4.
    destruct Hbase5 as (Hi5 & Hm5 & Hs5 & Hb5 & Hc5 & He5 & Hh5).
    destruct tr as [tr|].
    2:{ injection H as <- <- <-. repeat split; try done. close_frame. }
    set (st6 := record_iteration _ st5 _ _) in H.
    assert (Hbase6 : iteration st6 = iteration st + 1
                     ∧ max_iterations st6 = max_iterations st
                     ∧ start_time st6 = start_time st
                     ∧ baseline_metrics st6
                       = (if iteration st =? 0
                          then Some (aggregation_metrics a)
                          else baseline_metrics st)
                     ∧ current_metrics st6 = Some (aggregation_metrics a)
                     ∧ exit_condition st6 = exit_condition st
                     ∧ ∃ added : list IterationRecord.t,
                         iteration_history st6
                         = (iteration_history st ++ added)%list
                         ∧ (length added ≤ 4)%nat
                         ∧ Forall
                             (recorded_in_pass (iteration st + 1)
                                (Some (aggregation_metrics a)))
                             added).
    { subst st6. simpl. rewrite Hh5, <- app_assoc.
      repeat split; try done.
      assert (Hr4 : recorded_in_pass (iteration st + 1)
                      (Some (aggregation_metrics a))
                      (IterationRecord.mk (iteration st5) "testing"
                         (now_testing env) (testing_to_json tr)
                         (current_metrics st5))).
      { rewrite Hi5, Hc5. by repeat split. }
      eexists. split; [done|]. split; [simpl; lia|].
      repeat (constructor; [assumption|]); constructor. }
    clearbody st6.
    destruct Hbase6 as (Hi6 & Hm6 & Hs6 & Hb6 & Hc6 & He6 & Hadded).
    assert (Hcheck : ∀ fs0 fs1 st7 how0,
              check_exit_conditions fs0 st6 = Ret (fs1, st7, how0) →
              iteration st7 = iteration st + 1
              ∧ max_iterations st7 = max_iterations st
              ∧ start_time st7 = start_time st
              ∧ baseline_metrics st7 = baseline_metrics st6
              ∧ current_metrics st7 = current_metrics st6
              ∧ (how0 = Continue → exit_condition st7 = exit_condition st)
              ∧ iteration_history st7 = iteration_history st6).
    { intros fs0 fs1 st7 how0 Hc0. unfold check_exit_conditions in Hc0.
      bind_inv Hc0 as res Hres. destruct res as [st8 [exit_ reason]].
      destruct (should_exit_state _ _ _ _ Hres)
        as [[-> ->] | [-> [condition ->]]].
      - bind_inv Hc0 as progress Hprogress. injection Hc0 as <- <- <-.
        by repeat split.
      - injection Hc0 as <- <- <-. by repeat split. }
    destruct (String.eqb _ "next_fix").
    { injection H as <- <- <-. by repeat split. }
    destruct (String.eqb _ "re_diagnose").
    { apply Hcheck in H as (? & ? & ? & -> & -> & ? & ->).
      by repeat split. }
    destruct (String.eqb _ "wait_and_retest").
    { injection H as <- <- <-. by repeat split. }
    apply Hcheck in H as (? & ? & ? & -> & -> & ? & ->).
    by repeat split.
Qed.

(** ** The run of the loop *)

Lemma run_ends (run : result (files * State * flow)) (st : State)
    (how : flow) :
  flow_after run = Some how → ∃ fs', run = Ret (fs', state_after run st, how).
Proof.
  destruct run as [[[fs' st'] how']|e]; simpl; [|done].
  intros [= ->]. by exists fs'.
Qed.

Lemma main_loop_iteration (fs fs' : files) (base_dir : string)
    (envs : list PassEnv) (st st' : State) (how : flow) :
  main_loop fs base_dir envs st = Ret (fs', st', how) →
  iteration st ≤ iteration st'.
Proof.
  revert fs st. induction envs as [|env envs IH]; intros fs st H; simpl in H.
  - injection H as <- <- <-. lia.
  - bind_inv H as res Hres. destruct res as [[fs1 st1] how1].
    apply main_pass_frame in Hres as (Hi & _).
    destruct how1.
    + injection H as <- <- <-. lia.
    + apply IH in H. lia.
Qed.

(** X1: over any run of passes the iteration counter goes up by one a
    pass: it equals the number of passes when the loop has not ended and
    never decreases; [max_iterations] and [start_time] never change. *)
Theorem main_loop_counter (fs fs' : files) (base_dir : string)
    (envs : list PassEnv) (st st' : State) (how : flow) :
  main_loop fs base_dir envs st = Ret (fs', st', how) →
  iteration st ≤ iteration st' ≤ iteration st + Z.of_nat (length envs)
  ∧ match how with
    | Continue => iteration st' = iteration st + Z.of_nat (length envs)
    | Break => iteration st < iteration st'
    end
  ∧ max_iterations st' = max_iterations st
  ∧ start_time st' = start_time st.
Proof.
  revert fs st. induction envs as [|env envs IH]; intros fs st H; simpl in H.
  - injection H as <- <- <-. simpl. repeat split; lia.
  - bind_inv H as res Hres. destruct res as [[fs1 st1] how1].
    apply main_pass_frame in Hres as (Hi & Hm & Hs & _).
    destruct how1.
    + injection H as <- <- <-. simpl length. repeat split; try done; lia.
    + apply IH in H as (Hle & Hhow & Hm' & Hs').
      simpl length. repeat split; try congruence; try lia.
      destruct how; lia.
Qed.

Lemma main_loop_counter_witness :
  ∃ fs',
    main_loop ∅ "/plex" [ Examples.failing_pass; Examples.keeping_pass ]
      Examples.start
    = Ret (fs',
           state_after
             (main_loop ∅ "/plex"
                [ Examples.failing_pass; Examples.keeping_pass ]
                Examples.start)
             Examples.start,
           Continue)
    ∧ iteration
        (state_after
           (main_loop ∅ "/plex"
              [ Examples.failing_pass; Examples.keeping_pass ]
              Examples.start)
           Examples.start) = 2
    ∧ max_iterations
        (state_after
           (main_loop ∅ "/plex"
              [ Examples.failing_pass; Examples.keeping_pass ]
              Examples.start)
           Examples.start) = 10.
Proof.
  destruct (run_ends
              (main_loop ∅ "/plex"
                 [ Examples.failing_pass; Examples.keeping_pass ]
                 Examples.start)
              Examples.start Continue) as [fs' H];
    [vm_compute; reflexivity|].
  exists fs'. split; [exact H|].
  destruct (main_loop_counter _ _ _ _ _ _ _ H) as (_ & Hi & Hm & _).
  split; [exact Hi | exact Hm].
Defined.

(** X2: the history is append-only: a run of passes leaves the records
    it found where they were and adds at most four a pass, each with a
    snapshot and with the counter of a pass of the run.  So every record
    of a history built from the empty one carries a snapshot. *)
Theorem main_loop_history (fs fs' : files) (base_dir : string)
    (envs : list PassEnv) (st st' : State) (how : flow) :
  main_loop fs base_dir envs st = Ret (fs', st', how) →
  (∃ added : list IterationRecord.t,
     iteration_history st' = (iteration_history st ++ added)%list
     ∧ (length added ≤ 4 * length envs)%nat
     ∧ Forall
         (fun r =>
            is_Some (IterationRecord.metrics_snapshot r)
            ∧ iteration st < IterationRecord.iteration r ≤ iteration st')
         added)
  ∧ (snapshots_recorded st → snapshots_recorded st').
Proof.
  intros H.
  assert (Hadded : ∃ added : list IterationRecord.t,
     iteration_history st' = (iteration_history st ++ added)%list
     ∧ (length added ≤ 4 * length envs)%nat
     ∧ Forall
         (fun r =>
            is_Some (IterationRecord.metrics_snapshot r)
            ∧ iteration st < IterationRecord.iteration r ≤ iteration st')
         added).
  { revert fs st H.
    induction envs as [|env envs IH]; intros fs st H; simpl in H.
    - injection H as <- <- <-. exists []. rewrite app_nil_r.
      split; [done|]. split; [simpl; lia | constructor].
    - bind_inv H as res Hres. destruct res as [[fs1 st1] how1].
      apply main_pass_frame in Hres
        as (Hi & _ & _ & _ & _ & _ & added1 & Hh1 & Hlen1 & Hall1).
      assert (Hstep : Forall
                (fun r =>
                   is_Some (IterationRecord.metrics_snapshot r)
                   ∧ IterationRecord.iteration r = iteration st1)
                added1).
      { eapply Forall_impl; [exact Hall1|].
        intros r (Hr & Hsome & Hsnap). split; congruence. }
      destruct how1.
      + injection H as <- <- <-. exists added1.
        split; [done|]. split; [simpl; lia|].
        eapply Forall_impl; [exact Hstep|].
        intros r [? ->]. split; [done | lia].
      + pose proof (main_loop_iteration _ _ _ _ _ _ _ H) as Hle.
        apply IH in H as (added2 & Hh2 & Hlen2 & Hall2).
        exists (added1 ++ added2)%list.
        split; [by rewrite Hh2, Hh1, app_assoc|].
        split; [rewrite length_app; simpl; lia|].
        apply Forall_app. split.
        * eapply Forall_impl; [exact Hstep|].
          intros r [? ->]. split; [done | lia].
        * eapply Forall_impl; [exact Hall2|].
          intros r [? ?]. split; [done | lia]. }
  split; [exact Hadded|].
  destruct Hadded as (added & Hh & _ & Hall).
  unfold snapshots_recorded. rewrite Hh. intros Hst.
  apply Forall_app. split; [done|].
  eapply Forall_impl; [exact Hall|]. by intros r [? _].
Qed.

Lemma main_loop_history_witness :
  ∃ fs',
    main_loop ∅ "/plex" [ Examples.failing_pass; Examples.keeping_pass ]
      Examples.start
    = Ret (fs',
           state_after
             (main_loop ∅ "/plex"
                [ Examples.failing_pass; Examples.keeping_pass ]
                Examples.start)
             Examples.start,
           Continue)
    ∧ snapshots_recorded Examples.start
    ∧ snapshots_recorded
        (state_after
           (main_loop ∅ "/plex"
              [ Examples.failing_pass; Examples.keeping_pass ]
              Examples.start)
           Examples.start).
Proof.
  destruct (run_ends
              (main_loop ∅ "/plex"
                 [ Examples.failing_pass; Examples.keeping_pass ]
                 Examples.start)
              Examples.start Continue) as [fs' H];
    [vm_compute; reflexivity|].
  assert (Hstart : snapshots_recorded Examples.start) by constructor.
  exists fs'. split; [exact H|]. split; [exact Hstart|].
  destruct (main_loop_history _ _ _ _ _ _ _ H) as [_ Hrecorded].
  exact (Hrecorded Hstart).
Defined.

(** X3: the baseline is the first snapshot of the run.  It is set in the
    pass that brings the counter from 0 to 1, to the metrics of that
    aggregation, and no later pass changes it. *)
Theorem baseline_is_first_snapshot (fs fs' : files) (base_dir : string)
    (envs : list PassEnv) (st st' : State) (how : flow) :
  0 ≤ iteration st →
  main_loop fs base_dir envs st = Ret (fs', st', how) →
  baseline_metrics st'
  = if iteration st =? 0 then
      match envs with
      | [] => baseline_metrics st
      | env :: _ =>
          match aggregation env with
          | Some a => Some (aggregation_metrics a)
          | None => baseline_metrics st
          end
      end
    else baseline_metrics st.
Proof.
  assert (Hlater : ∀ envs fs st,
            0 < iteration st →
            main_loop fs base_dir envs st = Ret (fs', st', how) →
            baseline_metrics st' = baseline_metrics st).
  { clear. intros envs. induction envs as [|env envs IH];
      intros fs st Hpos H; simpl in H.
    - by injection H as <- <- <-.
    - bind_inv H as res Hres. destruct res as [[fs1 st1] how1].
      apply main_pass_frame in Hres as (Hi & _ & _ & Hb & _).
      replace (iteration st =? 0) with false in Hb
        by (symmetry; apply Z.eqb_neq; lia).
      assert (Hb1 : baseline_metrics st1 = baseline_metrics st)
        by (by destruct (aggregation env)).
      destruct how1.
      + injection H as <- <- <-. done.
      + apply IH in H; [congruence | lia]. }
  intros Hnonneg H.
  destruct (Z.eqb_spec (iteration st) 0) as [Hzero|Hnz];
    [|apply (Hlater envs fs); [lia | done]].
  destruct envs as [|env envs]; simpl in H.
  - by injection H as <- <- <-.
  - bind_inv H as res Hres. destruct res as [[fs1 st1] how1].
    apply main_pass_frame in Hres as (Hi & _ & _ & Hb & _).
    rewrite Hzero in Hb. simpl in Hb.
    destruct how1.
    + by injection H as <- <- <-.
    + apply Hlater in H; [congruence | lia].
Qed.

Lemma baseline_is_first_snapshot_witness :
  ∃ fs',
    0 ≤ iteration Examples.start
    ∧ main_loop ∅ "/plex" [ Examples.keeping_pass; Examples.later_pass ]
        Examples.start
      = Ret (fs',
             state_after
               (main_loop ∅ "/plex"
                  [ Examples.keeping_pass; Examples.later_pass ]
                  Examples.start)
               Examples.start,
             Continue)
    ∧ baseline_metrics
        (state_after
           (main_loop ∅ "/plex"
              [ Examples.keeping_pass; Examples.later_pass ]
              Examples.start)
           Examples.start)
      = Some (Examples.snapshot 100 50 30 10 10).
Proof.
  destruct (run_ends
              (main_loop ∅ "/plex"
                 [ Examples.keeping_pass; Examples.later_pass ]
                 Examples.start)
              Examples.start Continue) as [fs' H];
    [vm_compute; reflexivity|].
  assert (Hstart : 0 ≤ iteration Examples.start) by (simpl; lia).
  exists fs'. split; [exact Hstart|]. split; [exact H|].
  exact (baseline_is_first_snapshot _ _ _ _ _ _ _ Hstart H).
Defined.

(** X4: the exit condition is left as it was as long as the loop goes
    on; a run from a state without exit condition has none until the
    pass that ends it. *)
Theorem exit_condition_kept_while_running (fs fs' : files)
    (base_dir : string) (envs : list PassEnv) (st st' : State) :
  main_loop fs base_dir envs st = Ret (fs', st', Continue) →
  exit_condition st' = exit_condition st.
Proof.
  revert fs st. induction envs as [|env envs IH]; intros fs st H; simpl in H.
  - by injection H as <- <-.
  - bind_inv H as res Hres. destruct res as [[fs1 st1] how1].
    apply main_pass_frame in Hres as (_ & _ & _ & _ & _ & He & _).
    destruct how1; [discriminate|].
    apply IH in H. rewrite H. by apply He.
Qed.

Lemma exit_condition_kept_while_running_witness :
  ∃ fs',
    main_loop ∅ "/plex" [ Examples.keeping_pass; Examples.later_pass ]
      Examples.start
    = Ret (fs',
           state_after
             (main_loop ∅ "/plex"
                [ Examples.keeping_pass; Examples.later_pass ]
                Examples.start)
             Examples.start,
           Continue)
    ∧ exit_condition
        (state_after
           (main_loop ∅ "/plex"
              [ Examples.keeping_pass; Examples.later_pass ]
              Examples.start)
           Examples.start)
      = None.
Proof.
  destruct (run_ends
              (main_loop ∅ "/plex"
                 [ Examples.keeping_pass; Examples.later_pass ]
                 Examples.start)
              Examples.start Continue) as [fs' H];
    [vm_compute; reflexivity|].
  exists fs'. split; [exact H|].
  exact (exit_condition_kept_while_running _ _ _ _ _ _ H).
Defined.

(** ** Passes that skip the exit policy *)






(** ** The pass by test verdict *)









(** ** The exit policy on the states the loop builds *)

Lemma aggregation_member (h : list IterationRecord.t)
    (r : IterationRecord.t) :
  r ∈ filter is_aggregation h → r ∈ h.
Proof. intros Hr. by apply list_elem_of_filter in Hr as [_ ?]. Qed.

Lemma error_reduction_cases (baseline_errors current_errors : Z) :
  Spec.returns_unless_overflow
    (if 0 <? baseline_errors
     then percent_of (baseline_errors - current_errors) baseline_errors
     else Ret (Py.Int 0))
    (fun _ => True).
Proof.
  destruct (Z.ltb_spec 0 baseline_errors); [|done].
  eapply returns_unless_overflow_weaken; [apply percent_of_cases; lia|done].
Qed.

Lemma rates_chain_safe {A : Type} (k : num → num → num → A)
    (baseline_searches baseline_errors current_searches current_errors : Z) :
  Spec.returns_unless_overflow
    (rates_chain k baseline_searches baseline_errors
       current_searches current_errors)
    (fun _ => True).
Proof.
  eapply returns_unless_overflow_weaken; [apply rates_chain_cases|done].
Qed.

(** [calculate_progress] on a history whose records carry snapshots. *)
Lemma calculate_progress_safe (st : State) :
  snapshots_recorded st →
  Spec.returns_unless_overflow (calculate_progress st) (fun _ => True).
Proof.
  intros Hst. rewrite calculate_progress_unfold. unfold aggregations.
  destruct (_ <? 2); [done|].
  destruct (head _) as [first_agg|] eqn:Ehead; [|done].
  destruct (last _) as [latest_agg|] eqn:Elast; [|done].
  apply head_Some_elem_of, aggregation_member in Ehead.
  apply last_Some_elem_of, aggregation_member in Elast.
  unfold snapshots_recorded in Hst. rewrite Forall_forall in Hst.
  destruct (Hst _ Ehead) as [baseline Hbaseline].
  destruct (Hst _ Elast) as [current Hcurrent].
  cbv zeta. rewrite Hbaseline, Hcurrent, !snapshot_error_sum_Some. simpl.
  eapply returns_unless_overflow_bind; [apply error_reduction_cases|].
  intros error_reduction _.
  apply (rates_chain_safe
           (fun _ _ success_improvement =>
              Some
                {| Progress.total_error_reduction := round2 error_reduction;
                   Progress.success_rate_improvement :=
                     round2 success_improvement;
                   Progress.iterations :=
                     Z.of_nat
                       (length (filter is_aggregation (iteration_history st)));
                   Progress.fixes_successful :=
                     Z.of_nat (length (fixes_successful st));
                   Progress.fixes_failed := Z.of_nat (length (fixes_failed st));
                   Progress.baseline_errors := error_sum baseline;
                   Progress.current_errors := error_sum current |})).
Qed.

Lemma calculate_progress_returns (st : State) :
  snapshots_in_range st → Spec.returns (calculate_progress st).
Proof.
  intros Hst. rewrite calculate_progress_unfold. unfold aggregations.
  destruct (_ <? 2); [by eexists|].
  destruct (head _) as [first_agg|] eqn:Ehead; [|by eexists].
  destruct (last _) as [latest_agg|] eqn:Elast; [|by eexists].
  apply head_Some_elem_of, aggregation_member in Ehead.
  apply last_Some_elem_of, aggregation_member in Elast.
  unfold snapshots_in_range in Hst. rewrite Forall_forall in Hst.
  destruct (Hst _ Ehead) as (baseline & Hbaseline & Hb).
  destruct (Hst _ Elast) as (current & Hcurrent & Hc).
  pose proof (error_sum_in_range baseline Hb).
  pose proof (error_sum_in_range current Hc).
  assert (3 * 2 ^ 1000 < 2 ^ 1022) by (vm_compute; reflexivity).
  cbv zeta. rewrite Hbaseline, Hcurrent, !snapshot_error_sum_Some. simpl.
  eapply returns_bind;
    [apply error_reduction_returns; lia | apply error_reduction_cases |].
  intros error_reduction _.
  apply (rates_chain_returns
           (fun _ _ success_improvement =>
              Some
                {| Progress.total_error_reduction := round2 error_reduction;
                   Progress.success_rate_improvement :=
                     round2 success_improvement;
                   Progress.iterations :=
                     Z.of_nat
                       (length (filter is_aggregation (iteration_history st)));
                   Progress.fixes_successful :=
                     Z.of_nat (length (fixes_successful st));
                   Progress.fixes_failed := Z.of_nat (length (fixes_failed st));
                   Progress.baseline_errors := error_sum baseline;
                   Progress.current_errors := error_sum current |}));
    done.
Qed.

(** The loop of [detect_plateau] over valid indices. *)
Lemma plateau_loop_safe (recent : list IterationRecord.t)
    (indices : list nat) (improvements : list num) :
  Forall (fun r => is_Some (IterationRecord.metrics_snapshot r)) recent →
  Forall (fun i => (i + 1 < length recent)%nat) indices →
  Spec.returns_unless_overflow (plateau_loop recent indices improvements)
    (fun _ => True).
Proof.
  intros Hrecent Hindices. revert improvements.
  induction Hindices as [|i rest Hi _ IH]; intros improvements; [done|].
  simpl. unfold index.
  destruct (lookup_lt_is_Some_2 recent (i + 1)) as [r1 Hr1]; [lia|].
  destruct (lookup_lt_is_Some_2 recent i) as [r0 Hr0]; [lia|].
  rewrite Hr1, Hr0. simpl.
  destruct (Forall_lookup_1 _ _ _ _ Hrecent Hr1) as [current ->].
  destruct (Forall_lookup_1 _ _ _ _ Hrecent Hr0) as [previous ->].
  rewrite !snapshot_error_sum_Some. simpl.
  destruct (Z.ltb_spec 0 (error_sum previous)); [|apply IH].
  eapply returns_unless_overflow_bind; [apply percent_of_cases; lia|].
  intros improvement _. apply IH.
Qed.

Lemma plateau_loop_returns (recent : list IterationRecord.t)
    (indices : list nat) (improvements : list num) :
  Forall
    (fun r => ∃ m, IterationRecord.metrics_snapshot r = Some m
                   ∧ Spec.in_range m) recent →
  Forall (fun i => (i + 1 < length recent)%nat) indices →
  Spec.returns (plateau_loop recent indices improvements).
Proof.
  intros Hrecent Hindices. revert improvements.
  assert (6 * 2 ^ 1000 < 2 ^ 1023) by (vm_compute; reflexivity).
  induction Hindices as [|i rest Hi _ IH]; intros improvements;
    [by eexists|].
  simpl. unfold index.
  destruct (lookup_lt_is_Some_2 recent (i + 1)) as [r1 Hr1]; [lia|].
  destruct (lookup_lt_is_Some_2 recent i) as [r0 Hr0]; [lia|].
  rewrite Hr1, Hr0. simpl.
  destruct (Forall_lookup_1 _ _ _ _ Hrecent Hr1) as (current & -> & Hc).
  destruct (Forall_lookup_1 _ _ _ _ Hrecent Hr0) as (previous & -> & Hp).
  pose proof (error_sum_in_range previous Hp).
  pose proof (error_sum_in_range current Hc).
  rewrite !snapshot_error_sum_Some. simpl.
  destruct (Z.ltb_spec 0 (error_sum previous)); [|apply IH].
  eapply returns_bind;
    [apply percent_of_returns; lia | apply percent_of_cases; lia |].
  intros improvement _. apply IH.
Qed.

Lemma plateau_indices (recent : list IterationRecord.t) :
  Forall (fun i => (i + 1 < length recent)%nat)
    (seq 0 (length recent - 1)).
Proof. apply Forall_seq. intros j Hj. lia. Qed.

Lemma Forall_aggregations (P : IterationRecord.t → Prop)
    (h : list IterationRecord.t) :
  Forall P h → Forall P (last_two (filter is_aggregation h)).
Proof.
  intros Hh. unfold last_two. apply Forall_drop.
  rewrite Forall_forall in *. intros r Hr.
  by apply Hh, aggregation_member.
Qed.

Lemma detect_plateau_safe (st : State) (progress : option Progress.t) :
  snapshots_recorded st →
  detect_plateau st progress = Ret false
  ∨ detect_plateau st progress = Raise OverflowError.
Proof.
  intros Hst.
  destruct (detect_plateau_false_or_raise st progress) as [|[e He]];
    [by left|].
  right. rewrite He. f_equal.
  unfold detect_plateau in He.
  destruct (_ <? 3); [done|]. destruct (_ <? 2); [done|].
  pose proof (plateau_loop_safe _ _ []
                (Forall_aggregations _ _ Hst)
                (plateau_indices
                   (last_two (filter is_aggregation (iteration_history st)))))
    as Hsafe.
  destruct (plateau_loop _ _ _) as [improvements|e'] eqn:E; simpl in He.
  - by destruct (2 <=? _).
  - simpl in Hsafe. congruence.
Qed.

Lemma detect_plateau_returns (st : State) (progress : option Progress.t) :
  snapshots_in_range st → detect_plateau st progress = Ret false.
Proof.
  intros Hst.
  destruct (detect_plateau_false_or_raise st progress) as [|[e He]]; [done|].
  exfalso. unfold detect_plateau in He.
  destruct (_ <? 3); [done|]. destruct (_ <? 2); [done|].
  destruct (plateau_loop_returns _ _ []
              (Forall_aggregations _ _ Hst)
              (plateau_indices
                 (last_two (filter is_aggregation (iteration_history st)))))
    as [improvements E].
  rewrite E in He. simpl in He. by destruct (2 <=? _).
Qed.

(** X9: on a state whose records all carry a snapshot, as every state
    the loop builds, [should_exit] raises no [AttributeError] and no
    [IndexError]: it returns, or a conversion to [float] overflows; and
    it returns when the counters of the snapshots are in range. *)
Theorem should_exit_on_recorded_snapshots (st : State) :
  snapshots_recorded st →
  Spec.returns_unless_overflow (should_exit st) (fun _ => True)
  ∧ (snapshots_in_range st → Spec.returns (should_exit st)).
Proof.
  intros Hst. split.
  - unfold should_exit.
    eapply returns_unless_overflow_bind; [by apply calculate_progress_safe|].
    intros progress _.
    destruct (max_iterations st <=? iteration st); [done|].
    destruct (negb (has_more_fixes st)); [done|].
    destruct (detect_plateau_safe st progress Hst) as [-> | ->]; [|done].
    simpl.
    destruct (match progress with Some _ => _ | None => _ end); [done|].
    by destruct (detect_regression progress).
  - intros Hrange. unfold should_exit.
    destruct (calculate_progress_returns st Hrange) as [progress ->]. simpl.
    destruct (max_iterations st <=? iteration st); [by eexists|].
    destruct (negb (has_more_fixes st)); [by eexists|].
    rewrite (detect_plateau_returns st progress Hrange). simpl.
    destruct (match progress with Some _ => _ | None => _ end); [by eexists|].
    destruct (detect_regression progress); by eexists.
Qed.

Lemma should_exit_on_recorded_snapshots_witness :
  snapshots_recorded Examples.nothing_pending_state
  ∧ snapshots_in_range Examples.nothing_pending_state
  ∧ Spec.returns_unless_overflow (should_exit Examples.nothing_pending_state)
      (fun _ => True)
  ∧ Spec.returns (should_exit Examples.nothing_pending_state).
Proof.
  assert (Hrecorded : snapshots_recorded Examples.nothing_pending_state)
    by (repeat constructor; by eexists).
  assert (Hrange : snapshots_in_range Examples.nothing_pending_state).
  { unfold snapshots_in_range. simpl.
    repeat (constructor;
            [eexists; split;
             [reflexivity | apply (bool_decide_unpack _); vm_compute; exact I]
            |]).
    constructor. }
  destruct (should_exit_on_recorded_snapshots
              Examples.nothing_pending_state Hrecorded) as [Hsafe Hreturns].
  split; [exact Hrecorded|]. split; [exact Hrange|].
  split; [exact Hsafe | exact (Hreturns Hrange)].
Defined.

(** ** The final report *)

Lemma metric_rows_returns (baseline current : metrics) (keys : list string) :
  Spec.in_range baseline → Spec.in_range current →
  Spec.returns (metric_rows (Some baseline) (Some current) keys).
Proof.
  intros Hb Hc.
  assert (2 * 2 ^ 1000 < 2 ^ 1023) by (vm_compute; reflexivity).
  induction keys as [|key keys IH]; [by eexists|].
  pose proof (get_in_range baseline key 0 Hb).
  pose proof (get_in_range current key 0 Hc).
  simpl.
  assert (Spec.returns
            (if 0 <? get baseline key 0
             then percent_of (get current key 0 - get baseline key 0)
                    (get baseline key 0)
             else Ret (Py.Int 0))) as [pct_change ->].
  { destruct (Z.ltb_spec 0 (get baseline key 0)); [|by eexists].
    apply percent_of_returns; lia. }
  destruct IH as [rows ->]. by eexists.
Qed.

Lemma history_statuses_returns (history : list IterationRecord.t) :
  Forall (fun r => ∃ d, IterationRecord.results r = Json.Dict d) history →
  Spec.returns (history_statuses history).
Proof.
  induction 1 as [|record rest [d Hd] _ [statuses IH]]; [by eexists|].
  simpl. rewrite Hd, IH. by eexists.
Qed.

(** X10: when the first log aggregation fails, the loop ends in its
    first pass with the state it started from, only the counter set to
    1, and the final report that [main] then generates raises
    [AttributeError]: the baseline metrics are still [None]. *)
Theorem final_report_after_failed_first_aggregation (fs : files)
    (base_dir now : string) (env : PassEnv) (envs : list PassEnv) :
  aggregation env = None →
  main_loop fs base_dir (env :: envs) (init now)
  = Ret (fs, set_iteration (init now) 1, Break)
  ∧ generate_final_report fs base_dir (set_iteration (init now) 1)
    = Raise AttributeError.
Proof.
  intros Hfailed. split; [|reflexivity].
  simpl. unfold main_pass. by rewrite Hfailed.
Qed.

Lemma final_report_after_failed_first_aggregation_witness :
  main_loop ∅ "/plex"
    [ {| now_aggregation := "2024-01-01T00:00:00";
         now_diagnostics := "2024-01-01T00:05:00";
         now_implementation := "2024-01-01T00:10:00";
         now_testing := "2024-01-01T00:40:00";
         now_saved := "2024-01-01T00:41:00";
         aggregation := None;
         diagnostics := Some Examples.diagnosis;
         implementation_script := NotFound;
         testing := Examples.passing_tests |} ]
    Examples.start
  = Ret (∅, set_iteration Examples.start 1, Break)
  ∧ generate_final_report ∅ "/plex" (set_iteration Examples.start 1)
    = Raise AttributeError.
Proof.
  apply (final_report_after_failed_first_aggregation ∅ "/plex"
           "2024-01-01T00:00:00"). reflexivity.
Defined.

(** X11: with baseline and current metrics set, counters in range and
    an object as the payload of every record, [generate_final_report]
    returns, and it leaves in [loop_state.json] the state itself, not
    the wrapper [save_state] writes: [load_state] then returns the
    state, with its ['iteration'], and no other file changes. *)
Theorem final_report_saves_state (fs : files) (base_dir : string)
    (st : State) (baseline current : metrics) :
  baseline_metrics st = Some baseline →
  current_metrics st = Some current →
  Spec.in_range baseline → Spec.in_range current →
  snapshots_in_range st →
  Forall (fun r => ∃ d, IterationRecord.results r = Json.Dict d)
    (iteration_history st) →
  ∃ fs',
    generate_final_report fs base_dir st = Ret fs'
    ∧ load_state fs' (state_file base_dir) = Ret (state_to_json st)
    ∧ Json.lookup (state_to_json st) "iteration"
      = Some (Json.Int (iteration st))
    ∧ ∀ path, path ≠ state_file base_dir → fs' !! path = fs !! path.
Proof.
  intros Hbaseline Hcurrent Hb Hc Hrange Hpayloads.
  unfold generate_final_report.
  destruct (calculate_progress_returns st Hrange) as [progress ->].
  rewrite Hbaseline, Hcurrent.
  destruct (metric_rows_returns baseline current
              [ "total_search_ops"; "title_failures"; "url_errors";
                "model_errors" ] Hb Hc) as [rows ->].
  destruct (history_statuses_returns _ Hpayloads) as [statuses ->].
  eexists. split; [reflexivity|].
  split; [unfold load_state; by rewrite lookup_insert_eq|].
  split; [reflexivity|].
  intros path Hpath. by rewrite lookup_insert_ne.
Qed.

Lemma final_report_saves_state_witness :
  ∃ fs',
    generate_final_report ∅ "/plex" Examples.reported_state = Ret fs'
    ∧ load_state fs' (state_file "/plex")
      = Ret (state_to_json Examples.reported_state).
Proof.
  destruct (final_report_saves_state ∅ "/plex" Examples.reported_state
              (Examples.snapshot 100 50 30 10 10)
              (Examples.snapshot 100 50 30 10 10))
    as (fs' & Hreport & Hload & _).
  - reflexivity.
  - reflexivity.
  - apply (bool_decide_unpack _). vm_compute. exact I.
  - apply (bool_decide_unpack _). vm_compute. exact I.
  - constructor; [|constructor].
    eexists. split; [reflexivity|].
    apply (bool_decide_unpack _). vm_compute. exact I.
  - constructor; [|constructor]. eexists. reflexivity.
  - exists fs'. split; [exact Hreport | exact Hload].
Defined.

(** ** The success evaluator *)

Import MetricComparison SuccessEvaluator.

(** What [check_no_new_errors] computes: the test of ['model_errors']
    alone. *)
Lemma check_no_new_errors_model_errors (self : SuccessEvaluator.t) :
  check_no_new_errors self
  = negb ((baseline_value (comparison_results self) "model_errors" =? 0)
          && (0 <? current_value (comparison_results self) "model_errors")).
Proof.
  unfold check_no_new_errors. simpl.
  by destruct (_ && _).
Qed.

(** C7 (code at the failing input): with no URL error in the baseline
    report and three in the current one, nothing else changing,
    [check_no_new_errors] answers [True]: its loop visits
    ['model_errors'] only. *)
Theorem check_no_new_errors_ignores_url_errors :
  ∃ self,
    of_reports Examples.report_without_url_errors
      Examples.report_with_url_errors = Ret self
    ∧ baseline_value (comparison_results self) "url_errors" = 0
    ∧ current_value (comparison_results self) "url_errors" = 3
    ∧ check_no_new_errors self = true.
Proof.
  eexists. split; [vm_compute; reflexivity|].
  repeat split; vm_compute; reflexivity.
Qed.

(** The second success indicator is called with an argument it has no
    parameter for. *)
Lemma count_successes_raises (self : SuccessEvaluator.t) :
  count_successes (success_indicators self) 0 = Raise TypeError.
Proof. reflexivity. Qed.

(** C8 (code at the failing input): for the reports with errors 50, 20, 10
    before and 10, 5, 10 after, the error reduction is 68.75 and
    [evaluate_fix] raises [TypeError] instead of deciding KEEP. *)
Theorem evaluate_fix_raises_on_example :
  ∃ self,
    of_reports Examples.report_before Examples.report_after = Ret self
    ∧ error_reduction (overall_improvement self)
      = Float (S754_finite false 4837851162214400 (-46))
    ∧ check_error_reduction self 10 = true
    ∧ check_no_new_errors self = true
    ∧ check_url_errors_reduced self = true
    ∧ check_title_failures_reduced self = true
    ∧ check_error_increase self = false
    ∧ check_new_critical_errors self = false
    ∧ evaluate_fix self "Enhanced Headers for IAFD" = Raise TypeError.
Proof.
  eexists. split; [vm_compute; reflexivity|].
  repeat split; vm_compute; reflexivity.
Qed.

(** The decision rule at the end of [evaluate_fix], had it been reached:
    ROLLBACK on a failure indicator, else KEEP from 75, MONITOR from 50,
    ROLLBACK below. *)
Lemma decide_fix_rule (failure_detected : bool) (success_rate : num) :
  fst (decide_fix failure_detected success_rate)
  = if failure_detected then "ROLLBACK"
    else if geb success_rate 75 then "KEEP"
    else if geb success_rate 50 then "MONITOR"
    else "ROLLBACK".
Proof.
  unfold decide_fix.
  destruct failure_detected; [done|].
  destruct (geb success_rate 75); [done|].
  by destruct (geb success_rate 50).
Qed.

(** The success rates four indicators can give, and what the decision
    rule makes of each when no failure indicator fires. *)
Lemma quarter_success_rates :
  Forall
    (fun '(success_count, hundredths, outcome) =>
       ∃ f, percent_of success_count 4 = Ret (Float f)
            ∧ round2_double f = f
            ∧ SFeqb f (lit hundredths) = true
            ∧ fst (decide_fix false (Float f)) = outcome)
    [ (0, 0, "ROLLBACK"); (1, 25, "ROLLBACK"); (2, 50, "MONITOR");
      (3, 75, "KEEP"); (4, 100, "KEEP") ].
Proof.
  repeat constructor; eexists; (split; [vm_compute; reflexivity|]);
    repeat split; vm_compute; reflexivity.
Qed.

(** C10 (code at every input): [evaluate_fix] returns neither a success
    rate nor a decision; it raises [TypeError] when it calls
    [check_no_new_errors] with the threshold argument.  So it does for
    the reports where exactly two of the four success indicators hold
    and no failure indicator fires, for which the decision rule would
    give MONITOR. *)
Theorem evaluate_fix_always_raises :
  (∀ self fix_name, evaluate_fix self fix_name = Raise TypeError)
  ∧ ∃ self,
      of_reports Examples.report_half_before Examples.report_half_after
      = Ret self
      ∧ check_error_reduction self 10 = false
      ∧ check_no_new_errors self = true
      ∧ check_url_errors_reduced self = false
      ∧ check_title_failures_reduced self = true
      ∧ check_error_increase self = false
      ∧ check_new_critical_errors self = false
      ∧ evaluate_fix self "Enhanced Headers for IAFD" = Raise TypeError.
Proof.
  split.
  - intros self fix_name. unfold evaluate_fix.
    by rewrite count_successes_raises.
  - eexists. split; [vm_compute; reflexivity|].
    repeat split; vm_compute; reflexivity.
Qed.

(** ** The state manager *)



(** X13: after [clear_state] nothing of the state is left: the manager
    is empty, [get_state] returns the default for every key, the file
    is gone and a new manager of the same file starts empty. *)
Theorem clear_state_forgets (fs : files) (self : StateManager.t) :
  StateManager.state_file self ≠ "" →
  (StateManager.clear_state fs self).1 !! StateManager.state_file self = None
  ∧ (∀ key default_,
       StateManager.get_state (StateManager.clear_state fs self).2
         key default_
       = Ret default_)
  ∧ StateManager.init (StateManager.clear_state fs self).1
      (Some (StateManager.state_file self))
    = Ret (StateManager.clear_state fs self).2.
Proof.
  intros Hfile. unfold StateManager.clear_state. simpl.
  split; [apply lookup_delete_eq|].
  split; [done|].
  unfold StateManager.init.
  replace (String.eqb (StateManager.state_file self) "") with false
    by (symmetry; by apply String.eqb_neq).
  unfold StateManager.load_state. simpl. by rewrite lookup_delete_eq.
Qed.

Lemma clear_state_forgets_witness :
  StateManager.get_state
    (StateManager.clear_state
       (StateManager.save_state ∅ "2024-01-01T00:00:00"
          (StateManager.mk "/plex/state.json"
             (Json.Dict {[ "current_fix" := Json.Str "Enhanced Headers" ]}))
          "checkpoint")
       (StateManager.mk "/plex/state.json"
          (Json.Dict {[ "current_fix" := Json.Str "Enhanced Headers" ]}))).2
    "current_fix" Json.Null
  = Ret Json.Null.
Proof.
  destruct (clear_state_forgets
              (StateManager.save_state ∅ "2024-01-01T00:00:00"
                 (StateManager.mk "/plex/state.json"
                    (Json.Dict
                       {[ "current_fix" := Json.Str "Enhanced Headers" ]}))
                 "checkpoint")
              (StateManager.mk "/plex/state.json"
                 (Json.Dict
                    {[ "current_fix" := Json.Str "Enhanced Headers" ]})))
    as (_ & Hget & _).
  - discriminate.
  - exact (Hget "current_fix" Json.Null).
Defined.

(** ** The comparison script in the testing phase *)

(** X14: [main] of [compare_metrics.py] exits with status 1 whatever the
    reports hold, since [evaluate_fix] raises before any decision; so,
    when the comparison script is in place, the testing phase of the
    coordinator returns [None] and leaves the state as it was, also for
    a fix that removes every error. *)
Theorem compare_script_fails_testing (baseline_exists current_exists : bool)
    (baseline current : result metrics) (fix_name : string)
    (output_written : bool) (st : State)
    (implementation_results : ImplementationResults) (env : TestingEnv)
    (stderr : string) :
  compare_script env
  = Exited
      (main_exit_status baseline_exists current_exists baseline current
         fix_name output_written)
      stderr →
  main_exit_status baseline_exists current_exists baseline current
    fix_name output_written = 1
  ∧ execute_testing st implementation_results env = (st, None).
Proof.
  intros Hcompare.
  assert (Hstatus : main_exit_status baseline_exists current_exists
                      baseline current fix_name output_written = 1).
  { assert (Hraise : ∀ self, evaluate_fix self fix_name = Raise TypeError).
    { intros self. unfold evaluate_fix. by rewrite count_successes_raises. }
    unfold main_exit_status.
    destruct baseline_exists, current_exists; try reflexivity.
    cbn [negb].
    destruct baseline as [b|]; [|reflexivity].
    destruct current as [c|]; [|reflexivity].
    cbn [mbind result_bind bind].
    destruct (of_reports b c) as [evaluator|]; [|reflexivity].
    cbn [mbind result_bind bind]. by rewrite Hraise. }
  split; [exact Hstatus|].
  unfold execute_testing. rewrite Hcompare, Hstatus. simpl.
  destruct (failed_run (test_script env)); [reflexivity|].
  by destruct (failed_run (agg_script env)).
Qed.

Lemma compare_script_fails_testing_witness :
  main_exit_status true true (Ret (Examples.snapshot 100 50 30 10 10))
    (Ret (Examples.snapshot 100 100 0 0 0)) "Enhanced Headers for IAFD" true
  = 1
  ∧ execute_testing Examples.start
      (Implemented "Enhanced Headers for IAFD" Examples.enhanced_headers)
      {| test_script := NotFound;
         agg_script := Exited 0 "";
         compare_script :=
           Exited
             (main_exit_status true true
                (Ret (Examples.snapshot 100 50 30 10 10))
                (Ret (Examples.snapshot 100 100 0 0 0))
                "Enhanced Headers for IAFD" true)
             "TypeError";
         test_report := placeholder_test_results |}
    = (Examples.start, None).
Proof.
  apply (compare_script_fails_testing true true
           (Ret (Examples.snapshot 100 50 30 10 10))
           (Ret (Examples.snapshot 100 100 0 0 0))
           "Enhanced Headers for IAFD" true Examples.start
           (Implemented "Enhanced Headers for IAFD" Examples.enhanced_headers)
           _ "TypeError").
  reflexivity.
Defined.

(** ** The comparison report and the lookups of the evaluator *)

Lemma compare_metric_cases (self : MetricComparison.t) (name : string) :
  Spec.returns_unless_overflow (compare_metric self name) (compares self name).
Proof.
  unfold compare_metric. cbv zeta.
  destruct (Z.eqb_spec (get (MetricComparison.baseline self) name 0) 0)
    as [Hzero|Hnz].
  - simpl. by repeat split.
  - eapply returns_unless_overflow_bind; [by apply percent_of_cases|].
    intros percent_change _. simpl. by repeat split.
Qed.

Lemma compare_metric_returns (self : MetricComparison.t) (name : string) :
  Spec.in_range (MetricComparison.baseline self) →
  Spec.in_range (MetricComparison.current self) →
  Spec.returns (compare_metric self name).
Proof.
  intros Hb Hc.
  pose proof (get_in_range _ name 0 Hb).
  pose proof (get_in_range _ name 0 Hc).
  assert (2 * 2 ^ 1000 < 2 ^ 1023) by (vm_compute; reflexivity).
  unfold compare_metric. cbv zeta.
  destruct (Z.eqb_spec (get (MetricComparison.baseline self) name 0) 0)
    as [Hzero|Hnz]; [by eexists|].
  destruct (percent_of_returns
              (get (MetricComparison.current self) name 0
               - get (MetricComparison.baseline self) name 0)
              (get (MetricComparison.baseline self) name 0))
    as [percent_change ->]; [lia | lia | done |].
  by eexists.
Qed.

Lemma compare_all_cases (self : MetricComparison.t) (names : list string) :
  Spec.returns_unless_overflow (compare_all self names)
    (fun results => Forall2 (compares self) names results).
Proof.
  induction names as [|name names IH]; [constructor|].
  simpl.
  eapply returns_unless_overflow_bind; [apply compare_metric_cases|].
  intros r Hr.
  eapply returns_unless_overflow_bind; [exact IH|].
  intros rs Hrs. simpl. by constructor.
Qed.

Lemma compare_all_returns (self : MetricComparison.t) (names : list string) :
  Spec.in_range (MetricComparison.baseline self) →
  Spec.in_range (MetricComparison.current self) →
  Spec.returns (compare_all self names).
Proof.
  intros Hb Hc. induction names as [|name names [rs IH]]; [by eexists|].
  simpl. destruct (compare_metric_returns self name Hb Hc) as [r ->].
  simpl. rewrite IH. by eexists.
Qed.

Lemma lookups_of_comparisons (self : MetricComparison.t)
    (names : list string) (results : list Comparison) (name : string) :
  Forall2 (compares self) names results →
  baseline_value results name
  = (if bool_decide (name ∈ names)
     then get (MetricComparison.baseline self) name 0 else 0)
  ∧ current_value results name
    = (if bool_decide (name ∈ names)
       then get (MetricComparison.current self) name 0 else 0).
Proof.
  induction 1 as [|n r names results (Hm & Hb & Hc & _) _ IH].
  - done.
  - simpl. rewrite Hm.
    destruct (String.eqb_spec n name) as [->|Hne].
    + rewrite bool_decide_eq_true_2 by apply list_elem_of_here. done.
    + destruct IH as [IHb IHc]. rewrite IHb, IHc.
      destruct (decide (name ∈ names)) as [Hin|Hout].
      * rewrite !bool_decide_eq_true_2;
          [done | by apply list_elem_of_further | done].
      * rewrite !bool_decide_eq_false_2; [done | | done].
        intros Hin. apply elem_of_cons in Hin as [->|?]; done.
Qed.

(** X15: the evaluator that [main] builds from two parsed reports reads
    the counters of the reports: [baseline_value] and [current_value]
    return the counter of the report (0 when absent) for the five
    compared metrics and 0 for any other name, so that the checks on
    URL errors, title failures and model errors compare the counters of
    the two reports.  No division by zero can occur in building it, and
    with counters in range it is built. *)
Theorem evaluator_reads_the_reports (baseline current : metrics) :
  Spec.returns_unless_overflow (of_reports baseline current)
    (fun self =>
       (∀ name,
          baseline_value (comparison_results self) name
          = (if bool_decide (name ∈ metrics_to_compare)
             then get baseline name 0 else 0)
          ∧ current_value (comparison_results self) name
            = (if bool_decide (name ∈ metrics_to_compare)
               then get current name 0 else 0))
       ∧ check_url_errors_reduced self
         = (get current "url_errors" 0 <=? get baseline "url_errors" 0)
       ∧ check_title_failures_reduced self
         = (get current "title_failures" 0
            <=? get baseline "title_failures" 0)
       ∧ check_no_new_errors self
         = negb ((get baseline "model_errors" 0 =? 0)
                 && (0 <? get current "model_errors" 0)))
  ∧ (Spec.in_range baseline → Spec.in_range current →
     Spec.returns (of_reports baseline current)).
Proof.
  split.
  - unfold of_reports. cbv zeta.
    eapply returns_unless_overflow_bind;
      [apply (compare_all_cases (MetricComparison.mk baseline current))|].
    intros results Hresults.
    assert (Hlookup := fun name =>
              lookups_of_comparisons _ _ _ name Hresults).
    simpl in Hlookup.
    destruct (calculate_overall_improvement
                (MetricComparison.mk baseline current))
      as [overall|e] eqn:Eoverall.
    + simpl. split; [exact Hlookup|].
      unfold check_url_errors_reduced, check_title_failures_reduced,
        check_no_new_errors. simpl.
      destruct (Hlookup "url_errors") as [-> ->].
      destruct (Hlookup "title_failures") as [-> ->].
      destruct (Hlookup "model_errors") as [-> ->].
      by repeat split.
    + simpl.
      pose proof (rates_chain_cases
                    (fun _ _ _ => tt)
                    (get baseline "total_search_ops" 1) (error_sum baseline)
                    (get current "total_search_ops" 1) (error_sum current))
        as Hrates.
      unfold calculate_overall_improvement in Eoverall. simpl in Eoverall.
      pose proof (error_reduction_cases (error_sum baseline)
                    (error_sum current)) as Hreduction.
      destruct (if 0 <? error_sum baseline then _ else _)
        as [error_reduction|e1]; simpl in Eoverall, Hreduction;
        [|congruence].
      unfold rates_chain in Hrates.
      destruct (success_rate_of (get baseline "total_search_ops" 1) _)
        as [rb|e2]; simpl in Eoverall, Hrates; [|congruence].
      destruct (success_rate_of (get current "total_search_ops" 1) _)
        as [rc|e3]; simpl in Eoverall, Hrates; [|congruence].
      destruct (sub rc rb) as [s|e4]; simpl in Eoverall, Hrates; congruence.
  - intros Hb Hc. unfold of_reports. cbv zeta.
    destruct (compare_all_returns (MetricComparison.mk baseline current)
                metrics_to_compare Hb Hc) as [results Hresults].
    unfold generate_comparison_report. rewrite Hresults. simpl.
    pose proof (error_sum_in_range baseline Hb).
    pose proof (error_sum_in_range current Hc).
    assert (3 * 2 ^ 1000 < 2 ^ 1022) by (vm_compute; reflexivity).
    unfold calculate_overall_improvement. simpl.
    destruct (error_reduction_returns (error_sum baseline)
                (error_sum current)) as [error_reduction ->]; [lia | lia |].
    simpl.
    pose proof (get_in_range baseline "total_search_ops" 1 Hb).
    pose proof (get_in_range current "total_search_ops" 1 Hc).
    assert (4 * 2 ^ 1000 < 2 ^ 1023) by (vm_compute; reflexivity).
    pose proof (success_rate_of_cases (get baseline "total_search_ops" 1)
                  (error_sum baseline)) as Hrb.
    destruct (success_rate_of_returns (get baseline "total_search_ops" 1)
                (error_sum baseline)) as [rb Erb]; [lia | lia |].
    rewrite Erb in Hrb |- *. simpl in Hrb |- *.
    pose proof (success_rate_of_cases (get current "total_search_ops" 1)
                  (error_sum current)) as Hrc.
    destruct (success_rate_of_returns (get current "total_search_ops" 1)
                (error_sum current)) as [rc Erc]; [lia | lia |].
    rewrite Erc in Hrc |- *. simpl in Hrc |- *.
    destruct (sub_rates rc rb Hrc Hrb) as [s ->].
    simpl. by eexists.
Qed.

Lemma evaluator_reads_the_reports_witness :
  ∃ self,
    of_reports Examples.report_before Examples.report_after = Ret self
    ∧ baseline_value (comparison_results self) "url_errors" = 20
    ∧ current_value (comparison_results self) "url_errors" = 5
    ∧ check_url_errors_reduced self = true.
Proof.
  destruct (evaluator_reads_the_reports
              Examples.report_before Examples.report_after)
    as [Hcases Hreturns].
  destruct Hreturns as [self Hself].
  { apply (bool_decide_unpack _). vm_compute. exact I. }
  { apply (bool_decide_unpack _). vm_compute. exact I. }
  rewrite Hself in Hcases. simpl in Hcases.
  destruct Hcases as (Hlookup & Hurl & _).
  exists self. split; [exact Hself|].
  destruct (Hlookup "url_errors") as [Hbaseline Hcurrent].
  split; [rewrite Hbaseline; vm_compute; reflexivity|].
  split; [rewrite Hcurrent; vm_compute; reflexivity|].
  rewrite Hurl. vm_compute. reflexivity.
Defined.
